(** * SMA-crossover backtest: a shallow embedding of [main.py]

    The development follows the pipeline of [main.py]:
    quality gate, rolling mean, signal generation, the trading loop and
    the performance figures.

    Conventions of the embedding.
    - A Python/NumPy float is an exact rational or NaN: [pyfloat] is
      [option Q], [None] standing for NaN.  Rounding and the infinities
      are outside the model.
    - A timestamp is the integer number of milliseconds that
      [fetch_ohlcv] hands to [pd.to_datetime].
    - Integer columns and the [position] variable are [Z].
    - A call that can raise returns an [outcome]. *)

From Stdlib Require Import ZArith QArith Qreals Reals Lra Lia List.
From Stdlib Require Lqa.
From stdpp Require Import base gmap strings list sorting.
Import ListNotations.

Local Open Scope Z_scope.

(** ** Python values *)

Definition pyfloat : Type := option Q.

Inductive exn : Type :=
| KeyError (key : string)
| TypeError
| ValueError
| ZeroDivisionError.

Inductive outcome (A : Type) : Type :=
| Returns (a : A)
| Raises (e : exn).
Arguments Returns {A} a.
Arguments Raises {A} e.

#[global] Instance outcome_ret : MRet outcome := fun A a => Returns a.
#[global] Instance outcome_bind : MBind outcome := fun A B k c =>
  match c with
  | Returns a => k a
  | Raises e => Raises e
  end.

Definition Qltb (x y : Q) : bool := negb (Qle_bool y x).

(** Float arithmetic: NaN is contagious. *)
Definition fadd (x y : pyfloat) : pyfloat :=
  match x, y with
  | Some a, Some b => Some (a + b)%Q
  | _, _ => None
  end.

Definition fsub (x y : pyfloat) : pyfloat :=
  match x, y with
  | Some a, Some b => Some (a - b)%Q
  | _, _ => None
  end.

(** Float comparisons: any comparison with NaN is False. *)
Definition flt (x y : pyfloat) : bool :=
  match x, y with
  | Some a, Some b => Qltb a b
  | _, _ => false
  end.

Definition fgt (x y : pyfloat) : bool := flt y x.

Definition fle (x y : pyfloat) : bool :=
  match x, y with
  | Some a, Some b => Qle_bool a b
  | _, _ => false
  end.

(** ** The trading loop ([simulate_trading]) *)

(** What [df.iterrows()] yields, restricted to the three columns the
    loop reads. *)
Record Row : Type := mkRow {
  timestamp : Z;
  close : pyfloat;
  signal : Z
}.

(** The three local variables of [simulate_trading]. *)
Record Account : Type := mkAccount {
  balance : pyfloat;
  position : Z;
  entry_price : pyfloat
}.

Definition initial_account (initial_balance : pyfloat) : Account :=
  {| balance := initial_balance; position := 0; entry_price := Some 0%Q |}.

(** [df['timestamp'].iloc[-1]]; only evaluated inside the loop, hence
    on a frame with at least one row. *)
Definition last_timestamp (df : list Row) : Z :=
  List.last (List.map timestamp df) 0.

(** The [if]/[elif] pair of lines 127-135. *)
Definition entry_flip (row : Row) (st : Account) : Account :=
  if (signal row =? 1) && (position st <=? 0) then
    {| balance := balance st; position := 1; entry_price := close row |}
  else if (signal row =? -1) && (position st >=? 0) then
    {| balance := balance st; position := -1; entry_price := close row |}
  else st.

(** Lines 138-145. *)
Definition close_out (is_last_day : bool) (row : Row) (st : Account) : Account :=
  if is_last_day && negb (position st =? 0) then
    {| balance :=
         if position st =? 1 then
           fadd (balance st) (fsub (close row) (entry_price st))
         else if position st =? -1 then
           fadd (balance st) (fsub (entry_price st) (close row))
         else balance st;
       position := 0;
       entry_price := entry_price st |}
  else st.

Definition is_last_day (last_ts : Z) (row : Row) : bool :=
  timestamp row =? last_ts.

(** One iteration once the balance check has passed. *)
Definition loop_body (last_ts : Z) (row : Row) (st : Account) : Account :=
  close_out (is_last_day last_ts row) row (entry_flip row st).

(** The [for] loop; [break] returns the current state. *)
Fixpoint trading_loop (last_ts : Z) (rows : list Row) (st : Account) : Account :=
  match rows with
  | [] => st
  | row :: rest =>
      if flt (balance st) (Some 1000%Q) then st
      else trading_loop last_ts rest (loop_body last_ts row st)
  end.

Definition final_account (df : list Row) (initial_balance : pyfloat) : Account :=
  trading_loop (last_timestamp df) df (initial_account initial_balance).

Definition simulate_trading (df : list Row) (initial_balance : pyfloat) : pyfloat :=
  balance (final_account df initial_balance).

(** The state in which the loop reaches row number [k]. *)
Definition account_before (df : list Row) (initial_balance : pyfloat) (k : nat) : Account :=
  trading_loop (last_timestamp df) (firstn k df) (initial_account initial_balance).

Fixpoint increasing (ts : list Z) : bool :=
  match ts with
  | a :: (b :: _) as tl => (a <? b) && increasing tl
  | _ => true
  end.


(** ** Data frames *)

(** A column with its dtype: [datetime64], [float64] or [int64]. *)
Inductive Column : Type :=
| ColTime (ts : list Z)
| ColFloat (xs : list pyfloat)
| ColInt (zs : list Z).

Record DataFrame : Type := mkFrame {
  nrows : nat;
  columns : gmap string Column
}.

(** One kline as [fetch_ohlcv] keeps it (lines 55-62). *)
Record Bar : Type := mkBar {
  bar_timestamp : Z;
  bar_open : pyfloat;
  bar_high : pyfloat;
  bar_low : pyfloat;
  bar_close : pyfloat;
  bar_volume : pyfloat
}.

(** The frame [fetch_ohlcv] builds from the klines it received
    (lines 48-64); the requests themselves are not modelled. *)
Definition ohlcv_frame (bars : list Bar) : DataFrame :=
  {| nrows := length bars;
     columns :=
       <["timestamp" := ColTime (List.map bar_timestamp bars)]>
       (<["open" := ColFloat (List.map bar_open bars)]>
       (<["high" := ColFloat (List.map bar_high bars)]>
       (<["low" := ColFloat (List.map bar_low bars)]>
       (<["close" := ColFloat (List.map bar_close bars)]>
       (<["volume" := ColFloat (List.map bar_volume bars)]> ∅))))) |}.

(** [df[key]] *)
Definition getitem (df : DataFrame) (key : string) : outcome Column :=
  match columns df !! key with
  | Some c => Returns c
  | None => Raises (KeyError key)
  end.

(** [df[key] = c] *)
Definition setitem (df : DataFrame) (key : string) (c : Column) : DataFrame :=
  {| nrows := nrows df; columns := <[key := c]> (columns df) |}.

(** [df[[k1, ..., kn]]] *)
Definition getitems (df : DataFrame) (keys : list string) : outcome (list Column) :=
  mapM (getitem df) keys.

(** Numeric view of a column; a datetime column is not numeric. *)
Definition col_to_float (c : Column) : outcome (list pyfloat) :=
  match c with
  | ColFloat xs => Returns xs
  | ColInt zs => Returns (List.map (fun z => Some (inject_Z z)) zs)
  | ColTime _ => Raises TypeError
  end.

Definition any (bs : list bool) : bool := existsb (fun b => b) bs.

(** [.sum()] of a boolean column. *)
Definition count_true (bs : list bool) : Z :=
  Z.of_nat (length (List.filter (fun b => b) bs)).

(** ** The quality gate ([verify_data_quality]) *)

Definition is_nan (x : pyfloat) : bool :=
  match x with
  | None => true
  | Some _ => false
  end.

(** [.isnull()] on one column. *)
Definition col_isnull (c : Column) : list bool :=
  match c with
  | ColTime ts => List.map (fun _ => false) ts
  | ColFloat xs => List.map is_nan xs
  | ColInt zs => List.map (fun _ => false) zs
  end.

(** [df.isnull().values.any()] *)
Definition isnull_any (df : DataFrame) : bool :=
  bool_decide (map_Exists (fun _ c => any (col_isnull c) = true) (columns df)).

(** [.duplicated()] with the default [keep='first']: an entry is marked
    when an equal one occurs earlier. *)
Fixpoint duplicated_after {A} (eqb : A -> A -> bool) (seen l : list A) : list bool :=
  match l with
  | [] => []
  | x :: l' => existsb (eqb x) seen :: duplicated_after eqb (x :: seen) l'
  end.

Definition duplicated {A} (eqb : A -> A -> bool) (l : list A) : list bool :=
  duplicated_after eqb [] l.

(** For [duplicated], two NaN count as equal. *)
Definition same_float (x y : pyfloat) : bool :=
  match x, y with
  | Some a, Some b => Qeq_bool a b
  | None, None => true
  | _, _ => false
  end.

Definition col_duplicated (c : Column) : list bool :=
  match c with
  | ColTime ts => duplicated Z.eqb ts
  | ColFloat xs => duplicated same_float xs
  | ColInt zs => duplicated Z.eqb zs
  end.

(** [column <= 0] *)
Definition col_le_zero (c : Column) : outcome (list bool) :=
  match c with
  | ColTime _ => Raises TypeError
  | ColFloat xs => Returns (List.map (fun x => fle x (Some 0%Q)) xs)
  | ColInt zs => Returns (List.map (fun z => z <=? 0) zs)
  end.

Definition numeric_columns : list string :=
  ["open"; "high"; "low"; "close"; "volume"]%string.

(** [(df[numeric_columns] <= 0).any().any()] *)
Definition nonpositive_any (df : DataFrame) : outcome bool :=
  cols ← getitems df numeric_columns;
  masks ← mapM col_le_zero cols;
  mret (any (List.map any masks)).

Record QualityReport : Type := mkReport {
  total_rows : nat;
  missing_values : gmap string Z;
  duplicate_timestamps : Z;
  issues : list string
}.

Definition issue_missing : string := "Data contains missing values.".
Definition issue_duplicates : string := "Data contains duplicate timestamps.".
Definition issue_nonpositive : string :=
  "Data contains non-positive values in numeric columns.".

(** [issues.append(s)] under an [if]. *)
Definition append_if (cond : bool) (s : string) (issues : list string) : list string :=
  if cond then issues ++ [s] else issues.

Definition verify_data_quality (df : DataFrame) : outcome QualityReport :=
  let issues := [] in
  let issues := append_if (isnull_any df) issue_missing issues in
  ts ← getitem df "timestamp";
  let issues := append_if (any (col_duplicated ts)) issue_duplicates issues in
  nonpos ← nonpositive_any df;
  let issues := append_if nonpos issue_nonpositive issues in
  ts' ← getitem df "timestamp";
  mret {| total_rows := nrows df;
          missing_values := (fun c => count_true (col_isnull c)) <$> columns df;
          duplicate_timestamps := count_true (col_duplicated ts');
          issues := issues |}.

(** ** The rolling mean ([calculate_sma]) *)

(** The running count and sum that [Series.rolling(w).mean()] keeps while
    the window slides.  The compensated summation and the sign clamps of
    the library routine only guard against rounding and are the identity
    on exact numbers. *)
Record MeanAcc : Type := mkAcc {
  nobs : Z;
  sum_x : Q
}.

Definition empty_acc : MeanAcc := {| nobs := 0; sum_x := 0%Q |}.

Definition add_mean (acc : MeanAcc) (v : pyfloat) : MeanAcc :=
  match v with
  | Some x => {| nobs := nobs acc + 1; sum_x := (sum_x acc + x)%Q |}
  | None => acc
  end.

Definition remove_mean (acc : MeanAcc) (v : pyfloat) : MeanAcc :=
  match v with
  | Some x => {| nobs := nobs acc - 1; sum_x := (sum_x acc - x)%Q |}
  | None => acc
  end.

Definition calc_mean (minp : Z) (acc : MeanAcc) : pyfloat :=
  if (minp <=? nobs acc) && (0 <? nobs acc)
  then Some (sum_x acc / inject_Z (nobs acc))%Q
  else None.

(** [values[a:b]] *)
Definition slice {A} (values : list A) (a b : nat) : list A :=
  firstn (b - a) (skipn a values).

(** Window [i] is [values[i+1-w : i+1]].  The first window, and any
    window that does not overlap the previous one, is summed afresh;
    otherwise the values that left are removed and the new one added. *)
Fixpoint roll_mean_from (values : list pyfloat) (w : nat) (minp : Z)
    (i todo : nat) (acc : MeanAcc) : list pyfloat :=
  match todo with
  | O => []
  | S todo' =>
      let s := (i + 1 - w)%nat in
      let e := (i + 1)%nat in
      let acc' :=
        if (i =? 0)%nat || (i <=? s)%nat then
          fold_left add_mean (slice values s e) empty_acc
        else
          fold_left add_mean (slice values i e)
            (fold_left remove_mean (slice values (i - w) s) acc) in
      calc_mean minp acc' :: roll_mean_from values w minp (S i) todo' acc'
  end.

(** [min_periods] defaults to the window size. *)
Definition roll_mean (values : list pyfloat) (w : nat) : list pyfloat :=
  roll_mean_from values w (Z.of_nat w) 0 (length values) empty_acc.

(** [df[column].rolling(window=window).mean()]: the column lookup, the
    check of the window by the [rolling] constructor, then the mean. *)
Definition calculate_sma (df : DataFrame) (column : string) (window : Z)
  : outcome (list pyfloat) :=
  c ← getitem df column;
  if window <? 0 then Raises ValueError
  else
    values ← col_to_float c;
    mret (roll_mean values (Z.to_nat window)).

(** The trailing mean in the words of the specification: the mean of the
    [w] values ending at position [i], in float arithmetic, where a NaN
    among the values makes the mean NaN. *)
Definition fsum (xs : list pyfloat) : pyfloat := fold_right fadd (Some 0%Q) xs.

Definition fdiv (x y : pyfloat) : pyfloat :=
  match x, y with
  | Some a, Some b => Some (a / b)%Q
  | _, _ => None
  end.

Definition trailing_mean (values : list pyfloat) (w i : nat) : pyfloat :=
  fdiv (fsum (slice values (i + 1 - w) (i + 1))) (Some (inject_Z (Z.of_nat w))).

(** Two floats that denote the same number, or are both NaN. *)
Definition same_value (x y : pyfloat) : Prop :=
  match x, y with
  | Some a, Some b => (a == b)%Q
  | None, None => True
  | _, _ => False
  end.

(** ** Frames as shared objects *)

(** A Python variable holds a reference to a frame; the store maps
    references to frames.  [Heap A] is a computation that may read and
    update the store and either returns or raises. *)
Abbreviation heap := (gmap nat DataFrame).

Inductive result (A : Type) : Type :=
| Ok (a : A) (h : heap)
| Err (e : exn) (h : heap).
Arguments Ok {A} a h.
Arguments Err {A} e h.

Definition Heap (A : Type) : Type := heap -> result A.

#[global] Instance heap_ret : MRet Heap := fun A a h => Ok a h.
#[global] Instance heap_bind : MBind Heap := fun A B k c h =>
  match c h with
  | Ok a h' => k a h'
  | Err e h' => Err e h'
  end.

Definition empty_frame : DataFrame := {| nrows := 0; columns := ∅ |}.

Definition frame_at (h : heap) (r : nat) : DataFrame := default empty_frame (h !! r).

Definition read (r : nat) : Heap DataFrame := fun h => Ok (frame_at h r) h.

Definition write (r : nat) (df : DataFrame) : Heap unit := fun h => Ok tt (<[r := df]> h).

Definition alloc (df : DataFrame) : Heap nat := fun h =>
  let r := fresh (dom h) in Ok r (<[r := df]> h).

Definition lift {A} (c : outcome A) : Heap A := fun h =>
  match c with
  | Returns a => Ok a h
  | Raises e => Err e h
  end.

(** ** Signal generation ([generate_signals]) *)

(** [df[a] > df[b]], row by row. *)
Definition gt_mask (df : DataFrame) (a b : string) : outcome (list bool) :=
  ca ← getitem df a;
  cb ← getitem df b;
  xa ← col_to_float ca;
  xb ← col_to_float cb;
  mret (zip_with fgt xa xb).

(** [df.loc[mask, key] = v] on an existing integer column. *)
Definition loc_assign (df : DataFrame) (mask : list bool) (key : string) (v : Z)
  : outcome DataFrame :=
  c ← getitem df key;
  match c with
  | ColInt zs =>
      mret (setitem df key (ColInt (zip_with (fun (m : bool) z => if m then v else z) mask zs)))
  | _ => Raises TypeError
  end.

(** The three assignments act on the frame the caller passed, and the
    same reference is returned. *)
Definition generate_signals (df : nat) : Heap nat :=
  f ← read df;
  write df (setitem f "signal" (ColInt (replicate (nrows f) 0)));;
  f ← read df;
  buy ← lift (gt_mask f "SMA_10" "SMA_20");
  f' ← lift (loc_assign f buy "signal" 1);
  write df f';;
  f ← read df;
  sell ← lift (gt_mask f "SMA_20" "SMA_10");
  f' ← lift (loc_assign f sell "signal" (-1));
  write df f';;
  mret df.

(** The rows [df.iterrows()] hands to the trading loop. *)
Fixpoint zip_rows (ts : list Z) (closes : list pyfloat) (signals : list Z) : list Row :=
  match ts, closes, signals with
  | t :: ts', c :: closes', s :: signals' => mkRow t c s :: zip_rows ts' closes' signals'
  | _, _, _ => []
  end.

Definition iterrows (df : DataFrame) : outcome (list Row) :=
  ts ← getitem df "timestamp";
  cl ← getitem df "close";
  sg ← getitem df "signal";
  match ts, cl, sg with
  | ColTime ts, ColFloat closes, ColInt signals => mret (zip_rows ts closes signals)
  | _, _, _ => Raises TypeError
  end.

(** ** The pipeline ([main], lines 171-188)

    [bars] is what the exchange returned to [fetch_ohlcv].  The result
    is the quality report, the reference held by [ohlcv_data] and the
    final balance; printing and the CSV file are left out. *)
Definition main (bars : list Bar) : Heap (QualityReport * nat * pyfloat) :=
  let initial_balance := Some 10000%Q in
  ohlcv_data ← alloc (ohlcv_frame bars);
  f ← read ohlcv_data;
  quality_report ← lift (verify_data_quality f);
  f ← read ohlcv_data;
  sma10 ← lift (calculate_sma f "close" 10);
  f ← read ohlcv_data;
  write ohlcv_data (setitem f "SMA_10" (ColFloat sma10));;
  f ← read ohlcv_data;
  sma20 ← lift (calculate_sma f "close" 20);
  f ← read ohlcv_data;
  write ohlcv_data (setitem f "SMA_20" (ColFloat sma20));;
  ohlcv_data ← generate_signals ohlcv_data;
  f ← read ohlcv_data;
  rows ← lift (iterrows f);
  let final_balance := simulate_trading rows initial_balance in
  mret (quality_report, ohlcv_data, final_balance).

(** ** Annualised return ([calculate_cagr]) *)








(** ** Fetching the bars ([fetch_ohlcv])

    The exchange is a parameter: [request s startTime endTime] is the
    answer to one [requests.get] in server state [s], together with the
    next server state; symbol, interval and the page limit are the same
    in every request of one call.  A kline is taken as the bar
    [fetch_ohlcv] keeps of it, and the two dates as the millisecond
    stamps [start_ts] and [end_ts] computed from them.  The [while] loop
    need not terminate, so it runs on fuel. *)
Inductive response : Type :=
| HttpError
| Klines (klines : list Bar).

Inductive fetched (A : Type) : Type :=
| Fetched (a : A)
| HttpFailed
| OutOfFuel.
Arguments Fetched {A} a.
Arguments HttpFailed {A}.
Arguments OutOfFuel {A}.

(** [klines[-1][0]] *)
Definition last_open_time (klines : list Bar) : Z :=
  List.last (List.map bar_timestamp klines) 0.

Section Fetch.
Context {Server : Type}.
Variable request : Server -> Z -> Z -> response * Server.

(** Lines 20-45. *)
Fixpoint fetch_pages (fuel : nat) (s : Server) (current_start end_ts : Z)
    (all_data : list Bar) : fetched (list Bar) :=
  match fuel with
  | O => OutOfFuel
  | S fuel' =>
      if current_start <? end_ts then
        match request s current_start end_ts with
        | (HttpError, _) => HttpFailed
        | (Klines [], _) => Fetched all_data
        | (Klines klines, s') =>
            fetch_pages fuel' s' (last_open_time klines + 1) end_ts
              (all_data ++ klines)
        end
      else Fetched all_data
  end.

Definition fetch_ohlcv (fuel : nat) (s : Server) (start_ts end_ts : Z)
  : fetched DataFrame :=
  match fetch_pages fuel s start_ts end_ts [] with
  | Fetched all_data => Fetched (ohlcv_frame all_data)
  | HttpFailed => HttpFailed
  | OutOfFuel => OutOfFuel
  end.
End Fetch.

(** The stored bars whose open time lies in [[lo, hi]]. *)
Definition in_range (lo hi : Z) (db : list Bar) : list Bar :=
  List.filter (fun b => (lo <=? bar_timestamp b) && (bar_timestamp b <=? hi)) db.

(** Ordered by open time. *)
Definition bar_before (a b : Bar) : Prop := bar_timestamp a < bar_timestamp b.



(** ** The specification's own words *)

(** The signal rule of the specification, for one bar. *)
Definition signal_rule (sma10 sma20 : pyfloat) : Z :=
  match sma10, sma20 with
  | Some x, Some y => if Qltb y x then 1 else if Qltb x y then -1 else 0
  | _, _ => 0
  end.

(** The three checks of the quality gate, on the bars themselves. *)
Definition has_missing (bars : list Bar) : bool :=
  existsb (fun b => is_nan (bar_open b)) bars
  || existsb (fun b => is_nan (bar_high b)) bars
  || existsb (fun b => is_nan (bar_low b)) bars
  || existsb (fun b => is_nan (bar_close b)) bars
  || existsb (fun b => is_nan (bar_volume b)) bars.

Definition has_duplicate_timestamp (bars : list Bar) : bool :=
  negb (bool_decide (NoDup (List.map bar_timestamp bars))).

Definition has_nonpositive (bars : list Bar) : bool :=
  existsb (fun b => fle (bar_open b) (Some 0%Q)) bars
  || existsb (fun b => fle (bar_high b) (Some 0%Q)) bars
  || existsb (fun b => fle (bar_low b) (Some 0%Q)) bars
  || existsb (fun b => fle (bar_close b) (Some 0%Q)) bars
  || existsb (fun b => fle (bar_volume b) (Some 0%Q)) bars.

(** ** Predicates used in the proofs *)


Definition Qsum (xs : list Q) : Q := fold_right Qplus 0%Q xs.

(** The observations of a window: its values that are not NaN. *)
Fixpoint observations (window : list pyfloat) : list Q :=
  match window with
  | [] => []
  | Some x :: rest => x :: observations rest
  | None :: rest => observations rest
  end.

(** An accumulator that holds the count and the sum of the observations
    of a window. *)
Definition acc_tracks (acc : MeanAcc) (window : list pyfloat) : Prop :=
  nobs acc = Z.of_nat (length (observations window)) /\
  (sum_x acc == Qsum (observations window))%Q.

(** What the output at position [i] must be. *)
Definition mean_at (values : list pyfloat) (w i : nat) (out : pyfloat) : Prop :=
  if (w <=? i + 1)%nat
  then same_value out (trailing_mean values w i)
  else out = None.

(* ================================================================= *)
(** * Properties *)

(** ** Sanity checks of the trading loop *)

Example simulate_long_scenario :
  simulate_trading
    [mkRow 1 (Some 100%Q) 1; mkRow 2 (Some 110%Q) 0; mkRow 3 (Some 90%Q) 0]
    (Some 10000%Q) = Some 9990%Q.
Proof. reflexivity. Qed.

Example simulate_short_scenario :
  simulate_trading
    [mkRow 1 (Some 100%Q) (-1); mkRow 2 (Some 90%Q) 0; mkRow 3 (Some 130%Q) 0]
    (Some 10000%Q) = Some 9970%Q.
Proof. reflexivity. Qed.

(** ** Facts about the trading loop *)

Lemma Qltb_lt (x y : Q) : Qltb x y = true <-> (x < y)%Q.
Proof.
  unfold Qltb. rewrite negb_true_iff, <- not_true_iff_false, Qle_bool_iff.
  split; [apply Qnot_le_lt | apply Qlt_not_le].
Qed.

Lemma Qltb_ge (x y : Q) : Qltb x y = false <-> (y <= x)%Q.
Proof. unfold Qltb. rewrite negb_false_iff. apply Qle_bool_iff. Qed.

Lemma flt_floor_passes (q : Q) : (1000 <= q)%Q -> flt (Some q) (Some 1000%Q) = false.
Proof. intros H. simpl. now apply Qltb_ge. Qed.

(** A state that made the loop [break] makes it break again: running
    the loop over a concatenation is running it twice. *)
Lemma trading_loop_app (ts : Z) (pre post : list Row) (st : Account) :
  trading_loop ts (pre ++ post) st = trading_loop ts post (trading_loop ts pre st).
Proof.
  revert st. induction pre as [|row pre IH]; intros st; simpl; [reflexivity|].
  destruct (flt (balance st) (Some 1000%Q)) eqn:Hfloor; [|apply IH].
  destruct post; simpl; [reflexivity | now rewrite Hfloor].
Qed.

Lemma trading_loop_stopped (ts : Z) (rows : list Row) (st : Account) :
  flt (balance st) (Some 1000%Q) = true -> trading_loop ts rows st = st.
Proof. intros H. destruct rows; simpl; [reflexivity | now rewrite H]. Qed.

Lemma entry_flip_balance (row : Row) (st : Account) :
  balance (entry_flip row st) = balance st.
Proof.
  unfold entry_flip.
  destruct (_ && _); [reflexivity|]. destruct (_ && _); reflexivity.
Qed.

Lemma is_last_day_true (ts : Z) (row : Row) :
  is_last_day ts row = true <-> timestamp row = ts.
Proof. unfold is_last_day. apply Z.eqb_eq. Qed.

Lemma loop_body_other_day (ts : Z) (row : Row) (st : Account) :
  timestamp row <> ts -> loop_body ts row st = entry_flip row st.
Proof.
  intros Hne. unfold loop_body, close_out.
  destruct (is_last_day ts row) eqn:Hlast; [|reflexivity].
  apply is_last_day_true in Hlast. contradiction.
Qed.

Lemma trading_loop_balance_other_days (ts : Z) (rows : list Row) (st : Account) :
  List.Forall (fun row => timestamp row <> ts) rows ->
  balance (trading_loop ts rows st) = balance st.
Proof.
  intros Hrows. revert st.
  induction Hrows as [|row rows Hrow _ IH]; intros st; simpl; [reflexivity|].
  destruct (flt _ _); [reflexivity|].
  rewrite IH, loop_body_other_day by assumption. apply entry_flip_balance.
Qed.




Lemma close_out_last_position (row : Row) (st : Account) :
  position (close_out true row st) = 0.
Proof.
  unfold close_out. destruct (position st =? 0) eqn:H; simpl; [|reflexivity].
  now apply Z.eqb_eq.
Qed.

Lemma last_timestamp_snoc (pre : list Row) (row : Row) :
  last_timestamp (pre ++ [row]) = timestamp row.
Proof. unfold last_timestamp. rewrite List.map_app. simpl. apply List.last_last. Qed.

Lemma increasing_snoc_lt (ts : list Z) (t : Z) :
  increasing (ts ++ [t]) = true -> List.Forall (fun x => x < t) ts.
Proof.
  induction ts as [|a ts IH]; intros H; [constructor|].
  assert (Htl : increasing (ts ++ [t]) = true /\ a < t).
  { destruct ts as [|b ts]; simpl in H; apply andb_prop in H as [Hab Hrest].
    - split; [reflexivity | lia].
    - split; [exact Hrest|]. specialize (IH Hrest).
      inversion IH; subst. lia. }
  destruct Htl as [Htl Hat]. constructor; [exact Hat | now apply IH].
Qed.

Lemma increasing_rows_before_last (pre : list Row) (row : Row) :
  increasing (List.map timestamp (pre ++ [row])) = true ->
  List.Forall (fun r => timestamp r <> timestamp row) pre.
Proof.
  rewrite List.map_app. simpl. intros H. apply increasing_snoc_lt in H.
  rewrite List.Forall_map in H.
  eapply List.Forall_impl; [|exact H]. simpl. intros r Hr. lia.
Qed.

Lemma trading_loop_single (ts : Z) (row : Row) (st : Account) :
  flt (balance st) (Some 1000%Q) = false ->
  trading_loop ts [row] st = loop_body ts row st.
Proof. intros H. simpl. now rewrite H. Qed.

Lemma account_before_S (df : list Row) (initial_balance : pyfloat) (i : nat) (row : Row) :
  df !! i = Some row ->
  account_before df initial_balance (S i) =
  trading_loop (last_timestamp df) [row] (account_before df initial_balance i).
Proof.
  intros Hrow. unfold account_before.
  rewrite (take_S_r df i row Hrow). apply trading_loop_app.
Qed.

Lemma account_before_all (df : list Row) (initial_balance : pyfloat) :
  account_before df initial_balance (length df) = final_account df initial_balance.
Proof. unfold account_before, final_account. now rewrite firstn_all. Qed.

(** ** The balance floor and the empty series *)

(** C3: on an empty series, and for an initial balance below 1000 on any
    series, the run ends in its initial state (no signal acted on) and
    returns the initial balance. *)
Theorem simulate_trading_initial_unchanged (df : list Row) (initial_balance : pyfloat) :
  df = [] \/ (exists q, initial_balance = Some q /\ (q < 1000)%Q) ->
  final_account df initial_balance = initial_account initial_balance /\
  simulate_trading df initial_balance = initial_balance.
Proof.
  intros Hcase.
  assert (Hfinal : final_account df initial_balance = initial_account initial_balance).
  { destruct Hcase as [-> | (q & -> & Hq)]; [reflexivity|].
    apply trading_loop_stopped. simpl. now apply Qltb_lt. }
  split; [exact Hfinal|]. unfold simulate_trading. now rewrite Hfinal.
Qed.

Lemma simulate_trading_initial_unchanged_witness :
  (simulate_trading [] (Some 10000%Q) = Some 10000%Q) /\
  (simulate_trading [mkRow 1 (Some 100%Q) 1; mkRow 2 (Some 250%Q) 0] (Some 999%Q)
   = Some 999%Q).
Proof.
  split.
  - exact (proj2 (simulate_trading_initial_unchanged [] (Some 10000%Q)
                    (or_introl eq_refl))).
  - refine (proj2 (simulate_trading_initial_unchanged _ (Some 999%Q) _)).
    right. exists 999%Q. split; reflexivity.
Defined.

(** ** Close-out on the final bar *)

(** C1: with strictly increasing timestamps and an initial balance of at
    least 1000, the balance is the initial one whenever the loop reaches
    a bar; on the final bar a Long side adds [close - entry_price], a
    Short side adds [entry_price - close], and the side ends Flat.  The
    scenario [100, 110, 90] / [Buy, Flat, Flat] ends at [initial - 10]. *)
Theorem close_out_on_final_bar (pre : list Row) (final : Row) (q : Q) :
  increasing (List.map timestamp (pre ++ [final])) = true ->
  (1000 <= q)%Q ->
  let df := pre ++ [final] in
  let held := entry_flip final (account_before df (Some q) (length pre)) in
  (forall k, (k <= length pre)%nat ->
     balance (account_before df (Some q) k) = Some q) /\
  (position held = 1 ->
     simulate_trading df (Some q)
     = fadd (Some q) (fsub (close final) (entry_price held))) /\
  (position held = -1 ->
     simulate_trading df (Some q)
     = fadd (Some q) (fsub (entry_price held) (close final))) /\
  (position held = 0 -> simulate_trading df (Some q) = Some q) /\
  position (final_account df (Some q)) = 0 /\
  (forall t1 t2 t3, t1 < t2 -> t2 < t3 ->
     simulate_trading
       [mkRow t1 (Some 100%Q) 1; mkRow t2 (Some 110%Q) 0; mkRow t3 (Some 90%Q) 0]
       (Some q) = Some (q - 10)%Q).
Proof.
  intros Hinc Hq df held.
  pose proof (increasing_rows_before_last pre final Hinc) as Hpre.
  assert (Hts : last_timestamp df = timestamp final) by apply last_timestamp_snoc.
  assert (Hbal : forall k, (k <= length pre)%nat ->
             balance (account_before df (Some q) k) = Some q).
  { intros k Hk. unfold account_before. rewrite Hts. unfold df.
    rewrite take_app_le by exact Hk.
    rewrite trading_loop_balance_other_days; [reflexivity|].
    now apply Forall_take. }
  assert (Hfinal : final_account df (Some q) = close_out true final held).
  { rewrite <- account_before_all. unfold df at 2.
    rewrite length_app, Nat.add_1_r.
    rewrite (account_before_S df (Some q) (length pre) final).
    - rewrite trading_loop_single.
      + unfold loop_body. rewrite Hts.
        replace (is_last_day (timestamp final) final) with true; [reflexivity|].
        symmetry. now apply is_last_day_true.
      + rewrite Hbal by reflexivity. now apply flt_floor_passes.
    - unfold df. now rewrite list_lookup_middle. }
  assert (Hheld : balance held = Some q).
  { unfold held. rewrite entry_flip_balance. now apply Hbal. }
  split; [exact Hbal|].
  unfold simulate_trading. rewrite Hfinal. unfold close_out. simpl.
  repeat split.
  - intros H1. rewrite H1. simpl. now rewrite Hheld.
  - intros H1. rewrite H1. simpl. now rewrite Hheld.
  - intros H0. rewrite H0. simpl. exact Hheld.
  - destruct (position held =? 0) eqn:H0; simpl; [now apply Z.eqb_eq | reflexivity].
  - intros t1 t2 t3 H12 H23.
    unfold final_account, last_timestamp. simpl.
    rewrite (proj2 (Qltb_ge q 1000) Hq).
    unfold loop_body, is_last_day. simpl.
    replace (t1 =? t3) with false by (symmetry; apply Z.eqb_neq; lia).
    simpl. rewrite (proj2 (Qltb_ge q 1000) Hq). simpl.
    replace (t2 =? t3) with false by (symmetry; apply Z.eqb_neq; lia).
    simpl. rewrite (proj2 (Qltb_ge q 1000) Hq), Z.eqb_refl. reflexivity.
Qed.

Lemma close_out_on_final_bar_witness :
  increasing (List.map timestamp
    ([mkRow 1 (Some 100%Q) (-1); mkRow 2 (Some 90%Q) 0] ++ [mkRow 3 (Some 130%Q) 0])) = true /\
  (1000 <= 10000)%Q /\
  simulate_trading
    ([mkRow 1 (Some 100%Q) (-1); mkRow 2 (Some 90%Q) 0] ++ [mkRow 3 (Some 130%Q) 0])
    (Some 10000%Q)
  = fadd (Some 10000%Q) (fsub (Some 100%Q) (Some 130%Q)).
Proof.
  assert (Hinc : increasing (List.map timestamp
    ([mkRow 1 (Some 100%Q) (-1); mkRow 2 (Some 90%Q) 0] ++ [mkRow 3 (Some 130%Q) 0])) = true)
    by reflexivity.
  assert (Hq : (1000 <= 10000)%Q) by (vm_compute; discriminate).
  split; [exact Hinc|]. split; [exact Hq|].
  exact (proj1 (proj2 (proj2
    (close_out_on_final_bar
       [mkRow 1 (Some 100%Q) (-1); mkRow 2 (Some 90%Q) 0] (mkRow 3 (Some 130%Q) 0)
       10000%Q Hinc Hq))) eq_refl).
Defined.

(** ** Where the balance can change *)

Lemma increasing_lookup_last (df : list Row) (i : nat) (row : Row) :
  increasing (List.map timestamp df) = true ->
  df !! i = Some row ->
  (timestamp row = last_timestamp df <-> S i = length df).
Proof.
  intros Hinc Hrow.
  destruct df as [|r0 df0] using rev_ind; [discriminate|]. clear IHdf0.
  rename df0 into pre, r0 into final.
  rewrite last_timestamp_snoc, length_app, Nat.add_1_r.
  rewrite List.map_app in Hinc. simpl in Hinc.
  apply increasing_snoc_lt in Hinc. rewrite List.Forall_map in Hinc.
  destruct (decide (i < length pre)%nat) as [Hlt|Hge].
  - rewrite lookup_app_l in Hrow by exact Hlt.
    apply list_elem_of_lookup_2, list_elem_of_In in Hrow.
    rewrite List.Forall_forall in Hinc. specialize (Hinc row Hrow). simpl in Hinc.
    split; intros; lia.
  - apply lookup_lt_Some in Hrow as Hi. rewrite length_app in Hi. simpl in Hi.
    assert (i = length pre) as -> by lia.
    rewrite list_lookup_middle in Hrow by reflexivity.
    injection Hrow as <-. split; reflexivity.
Qed.

(** C2, as stated, fails: a bar that is not the last one but carries the
    last row's timestamp credits the balance. *)
Lemma balance_changed_before_last_bar :
  ~ (forall (df : list Row) (initial_balance : pyfloat) (k : nat),
       (k < length df)%nat ->
       balance (account_before df initial_balance k) = initial_balance).
Proof.
  intros Hclaim.
  specialize (Hclaim
    [mkRow 1 (Some 100%Q) 1; mkRow 3 (Some 150%Q) 0; mkRow 3 (Some 120%Q) 0]
    (Some 10000%Q) 2%nat ltac:(simpl; lia)).
  vm_compute in Hclaim. discriminate Hclaim.
Qed.

(** C2 (amended): an entry or flip only sets the side and overwrites
    [entry_price]; a bar whose timestamp differs from the last row's
    leaves the balance alone; so the loop reaches bar [k] with the
    initial balance whenever no earlier bar carries the last row's
    timestamp, in particular for every [k] under strictly increasing
    timestamps. *)
Theorem balance_changes_only_in_close_out
    (df : list Row) (initial_balance : pyfloat) (k : nat) :
  (forall row st, signal row = 1 -> position st <= 0 ->
     entry_flip row st = mkAccount (balance st) 1 (close row)) /\
  (forall row st, signal row = -1 -> 0 <= position st ->
     entry_flip row st = mkAccount (balance st) (-1) (close row)) /\
  (forall row st, balance (entry_flip row st) = balance st) /\
  (forall ts row st, timestamp row <> ts ->
     balance (loop_body ts row st) = balance st) /\
  (List.Forall (fun row => timestamp row <> last_timestamp df) (firstn k df) ->
     balance (account_before df initial_balance k) = initial_balance) /\
  (increasing (List.map timestamp df) = true -> (k < length df)%nat ->
     balance (account_before df initial_balance k) = initial_balance).
Proof.
  assert (Hother : List.Forall (fun row => timestamp row <> last_timestamp df) (firstn k df) ->
            balance (account_before df initial_balance k) = initial_balance).
  { intros H. unfold account_before.
    now rewrite trading_loop_balance_other_days. }
  repeat split.
  - intros row st Hs Hp. unfold entry_flip. rewrite Hs. simpl.
    now rewrite (proj2 (Z.leb_le _ _) Hp).
  - intros row st Hs Hp. unfold entry_flip. rewrite Hs. simpl.
    destruct (position st <=? 0) eqn:Hle; simpl.
    + apply Z.leb_le in Hle. now replace (position st) with 0 by lia.
    + now rewrite (proj2 (Z.geb_le _ _) Hp).
  - apply entry_flip_balance.
  - intros ts row st Hne. rewrite loop_body_other_day by exact Hne.
    apply entry_flip_balance.
  - exact Hother.
  - intros Hinc Hk. apply Hother.
    apply List.Forall_forall. intros row Hin.
    apply list_elem_of_In, list_elem_of_lookup in Hin as [i Hi].
    apply lookup_take_Some in Hi as [Hi Hik].
    intros Heq. apply (increasing_lookup_last df i row Hinc Hi) in Heq. lia.
Qed.

Lemma balance_changes_only_in_close_out_witness :
  let df := [mkRow 1 (Some 100%Q) 1; mkRow 2 (Some 150%Q) (-1); mkRow 3 (Some 120%Q) 0] in
  increasing (List.map timestamp df) = true /\ (2 < length df)%nat /\
  balance (account_before df (Some 10000%Q) 2) = Some 10000%Q.
Proof.
  intros df.
  assert (Hinc : increasing (List.map timestamp df) = true) by reflexivity.
  assert (Hk : (2 < length df)%nat) by (simpl; lia).
  split; [exact Hinc|]. split; [exact Hk|].
  exact (proj2 (proj2 (proj2 (proj2 (proj2
    (balance_changes_only_in_close_out df (Some 10000%Q) 2))))) Hinc Hk).
Defined.

(** ** The final bar is found by timestamp *)

(** C10: the close-out test compares the bar's timestamp with the last
    row's.  Any bar reached with the floor check passed and carrying the
    last row's timestamp is closed out and left Flat, whether or not it
    is the last row; with strictly increasing timestamps the test holds
    on the last row only. *)
Theorem close_out_by_timestamp
    (df : list Row) (initial_balance : pyfloat) (i : nat) (row : Row) :
  df !! i = Some row ->
  let before := account_before df initial_balance i in
  let held := entry_flip row before in
  let after := account_before df initial_balance (S i) in
  (timestamp row = last_timestamp df ->
   flt (balance before) (Some 1000%Q) = false ->
     is_last_day (last_timestamp df) row = true /\
     after = close_out true row held /\
     position after = 0 /\
     (position held = 1 ->
        balance after = fadd (balance before) (fsub (close row) (entry_price held))) /\
     (position held = -1 ->
        balance after = fadd (balance before) (fsub (entry_price held) (close row)))) /\
  (increasing (List.map timestamp df) = true ->
     (is_last_day (last_timestamp df) row = true <-> S i = length df)).
Proof.
  intros Hrow before held after. split.
  - intros Hts Hfloor.
    assert (Hlast : is_last_day (last_timestamp df) row = true)
      by now apply is_last_day_true.
    assert (Hafter : after = close_out true row held).
    { unfold after. rewrite (account_before_S df initial_balance i row Hrow).
      fold before. rewrite trading_loop_single by exact Hfloor.
      unfold loop_body. now rewrite Hlast. }
    assert (Hheld : balance held = balance before) by apply entry_flip_balance.
    split; [exact Hlast|]. split; [exact Hafter|].
    rewrite Hafter. split; [apply close_out_last_position|].
    unfold close_out. split; intros Hp; rewrite Hp; simpl; now rewrite Hheld.
  - intros Hinc. rewrite is_last_day_true.
    now apply increasing_lookup_last.
Qed.

Lemma close_out_by_timestamp_witness :
  let df := [mkRow 1 (Some 100%Q) 1; mkRow 3 (Some 150%Q) 0; mkRow 3 (Some 120%Q) 0] in
  df !! 1%nat = Some (mkRow 3 (Some 150%Q) 0) /\
  timestamp (mkRow 3 (Some 150%Q) 0) = last_timestamp df /\
  balance (account_before df (Some 10000%Q) 2)
  = fadd (Some 10000%Q) (fsub (Some 150%Q) (Some 100%Q)) /\
  position (account_before df (Some 10000%Q) 2) = 0.
Proof.
  intros df.
  assert (Hrow : df !! 1%nat = Some (mkRow 3 (Some 150%Q) 0)) by reflexivity.
  assert (Hts : timestamp (mkRow 3 (Some 150%Q) 0) = last_timestamp df) by reflexivity.
  pose proof (proj1 (close_out_by_timestamp df (Some 10000%Q) 1
                       (mkRow 3 (Some 150%Q) 0) Hrow) Hts eq_refl)
    as (_ & _ & Hpos & Hlong & _).
  split; [exact Hrow|]. split; [exact Hts|].
  split; [exact (Hlong eq_refl) | exact Hpos].
Defined.

(** ** The annualised return *)
















(** ** The rolling mean *)

Lemma Qsum_cons (x : Q) (l : list Q) : Qsum (x :: l) = (x + Qsum l)%Q.
Proof. reflexivity. Qed.

Lemma Qsum_app (l1 l2 : list Q) : (Qsum (l1 ++ l2) == Qsum l1 + Qsum l2)%Q.
Proof.
  induction l1 as [|x l1 IH]; simpl.
  - now rewrite Qplus_0_l.
  - rewrite IH. apply Qplus_assoc.
Qed.

Lemma slice_split {A} (l : list A) (a b c : nat) :
  (a <= b)%nat -> (b <= c)%nat -> slice l a c = slice l a b ++ slice l b c.
Proof.
  intros Hab Hbc. unfold slice.
  replace (c - a)%nat with ((b - a) + (c - b))%nat by lia.
  rewrite <- take_take_drop. do 2 f_equal.
  rewrite drop_drop. f_equal. lia.
Qed.

Lemma slice_length {A} (l : list A) (a b : nat) :
  (b <= length l)%nat -> length (slice l a b) = (b - a)%nat.
Proof. intros Hb. unfold slice. rewrite length_take, length_drop. lia. Qed.

Lemma observations_app (l1 l2 : list pyfloat) :
  observations (l1 ++ l2) = observations l1 ++ observations l2.
Proof.
  induction l1 as [|[x|] l1 IH]; simpl; [reflexivity | now rewrite IH | exact IH].
Qed.

Lemma observations_length (l : list pyfloat) :
  (length (observations l) <= length l)%nat.
Proof. induction l as [|[x|] l IH]; simpl; lia. Qed.


(** The float sum of a window is the sum of its observations when none
    is missing, and NaN otherwise. *)
Lemma fsum_complete (l : list pyfloat) :
  length (observations l) = length l -> fsum l = Some (Qsum (observations l)).
Proof.
  induction l as [|[x|] l IH]; simpl; intros Hlen.
  - reflexivity.
  - unfold fsum in *. simpl. rewrite IH by lia. reflexivity.
  - pose proof (observations_length l). lia.
Qed.

Lemma fsum_incomplete (l : list pyfloat) :
  (length (observations l) < length l)%nat -> fsum l = None.
Proof.
  induction l as [|[x|] l IH]; simpl; intros Hlen.
  - lia.
  - unfold fsum in *. simpl. rewrite IH by lia. reflexivity.
  - unfold fsum. simpl. now destruct (fold_right fadd (Some 0%Q) l).
Qed.

Lemma fold_add_mean (l : list pyfloat) (acc : MeanAcc) :
  nobs (fold_left add_mean l acc) = nobs acc + Z.of_nat (length (observations l)) /\
  (sum_x (fold_left add_mean l acc) == sum_x acc + Qsum (observations l))%Q.
Proof.
  revert acc. induction l as [|[x|] l IH]; intros acc.
  - cbn [fold_left observations length]. split; [lia | unfold Qsum; simpl; ring].
  - destruct (IH (add_mean acc (Some x))) as [Hn Hs].
    cbn [fold_left observations length]. rewrite Qsum_cons. split.
    + rewrite Hn. cbn [add_mean nobs]. lia.
    + rewrite Hs. cbn [add_mean sum_x]. ring.
  - apply IH.
Qed.

Lemma fold_remove_mean (l : list pyfloat) (acc : MeanAcc) :
  nobs (fold_left remove_mean l acc) = nobs acc - Z.of_nat (length (observations l)) /\
  (sum_x (fold_left remove_mean l acc) == sum_x acc - Qsum (observations l))%Q.
Proof.
  revert acc. induction l as [|[x|] l IH]; intros acc.
  - cbn [fold_left observations length]. split; [lia | unfold Qsum; simpl; ring].
  - destruct (IH (remove_mean acc (Some x))) as [Hn Hs].
    cbn [fold_left observations length]. rewrite Qsum_cons. split.
    + rewrite Hn. cbn [remove_mean nobs]. lia.
    + rewrite Hs. cbn [remove_mean sum_x]. ring.
  - apply IH.
Qed.

Lemma fresh_window_tracked (values : list pyfloat) (s e : nat) :
  acc_tracks (fold_left add_mean (slice values s e) empty_acc) (slice values s e).
Proof.
  destruct (fold_add_mean (slice values s e) empty_acc) as [Hn Hs].
  split; [rewrite Hn; simpl; lia | rewrite Hs; simpl; apply Qplus_0_l].
Qed.

Lemma slid_window_tracked (values : list pyfloat) (w i : nat) (acc : MeanAcc) :
  (i + 1 - w < i)%nat ->
  acc_tracks acc (slice values (i - w) i) ->
  acc_tracks
    (fold_left add_mean (slice values i (i + 1))
       (fold_left remove_mean (slice values (i - w) (i + 1 - w)) acc))
    (slice values (i + 1 - w) (i + 1)).
Proof.
  intros Hs [Hn Hsum].
  set (removed := slice values (i - w) (i + 1 - w)).
  set (added := slice values i (i + 1)).
  set (kept := slice values (i + 1 - w) i).
  assert (Hold : slice values (i - w) i = removed ++ kept)
    by (apply slice_split; lia).
  assert (Hnew : slice values (i + 1 - w) (i + 1) = kept ++ added)
    by (apply slice_split; lia).
  rewrite Hold, observations_app in Hn, Hsum.
  unfold acc_tracks. rewrite Hnew, observations_app.
  rewrite length_app in Hn. rewrite Qsum_app in Hsum.
  destruct (fold_remove_mean removed acc) as [Hrn Hrs].
  destruct (fold_add_mean added (fold_left remove_mean removed acc)) as [Han Has].
  split.
  - rewrite Han, Hrn, Hn, length_app. lia.
  - rewrite Has, Hrs, Hsum, Qsum_app. ring.
Qed.

Lemma calc_mean_tracked (values : list pyfloat) (w i : nat) (acc : MeanAcc) :
  (1 <= w)%nat -> (i < length values)%nat ->
  acc_tracks acc (slice values (i + 1 - w) (i + 1)) ->
  mean_at values w i (calc_mean (Z.of_nat w) acc).
Proof.
  intros Hw Hi [Hn Hsum].
  pose proof (observations_length (slice values (i + 1 - w) (i + 1))) as Hobs.
  pose proof (slice_length values (i + 1 - w) (i + 1) ltac:(lia)) as Hlen.
  unfold mean_at, calc_mean, trailing_mean.
  destruct (w <=? i + 1)%nat eqn:Hfull.
  - apply Nat.leb_le in Hfull.
    destruct (decide (length (observations (slice values (i + 1 - w) (i + 1))) = w))
      as [Hall|Hsome].
    + rewrite fsum_complete by lia.
      replace (nobs acc) with (Z.of_nat w) by lia.
      replace (Z.of_nat w <=? Z.of_nat w) with true by (symmetry; apply Z.leb_le; lia).
      replace (0 <? Z.of_nat w) with true by (symmetry; apply Z.ltb_lt; lia).
      simpl. now rewrite Hsum.
    + rewrite fsum_incomplete by lia.
      replace (Z.of_nat w <=? nobs acc) with false by (symmetry; apply Z.leb_gt; lia).
      exact I.
  - apply Nat.leb_gt in Hfull.
    replace (Z.of_nat w <=? nobs acc) with false by (symmetry; apply Z.leb_gt; lia).
    reflexivity.
Qed.

Lemma roll_mean_from_spec (values : list pyfloat) (w : nat) :
  (1 <= w)%nat ->
  forall todo i acc,
    (i + todo = length values)%nat ->
    i = 0%nat \/ acc_tracks acc (slice values (i - w) i) ->
    Forall2 (mean_at values w) (seq i todo)
      (roll_mean_from values w (Z.of_nat w) i todo acc).
Proof.
  intros Hw. induction todo as [|todo IH]; intros i acc Hlen Hacc; simpl.
  - constructor.
  - match goal with
    | |- Forall2 _ _ (calc_mean _ ?a :: _) => set (acc' := a)
    end.
    assert (Htracked : acc_tracks acc' (slice values (i + 1 - w) (i + 1))).
    { unfold acc'.
      destruct ((i =? 0)%nat || (i <=? i + 1 - w)%nat) eqn:Hfresh.
      - apply fresh_window_tracked.
      - apply orb_false_iff in Hfresh as [Hi0 Hslide].
        apply Nat.eqb_neq in Hi0. apply Nat.leb_gt in Hslide.
        destruct Hacc as [->|Hacc]; [contradiction|].
        now apply slid_window_tracked. }
    constructor.
    + apply calc_mean_tracked; [exact Hw | lia | exact Htracked].
    + apply IH; [lia|]. right.
      replace (S i - w)%nat with (i + 1 - w)%nat by lia.
      replace (S i) with (i + 1)%nat by lia. exact Htracked.
Qed.

Lemma roll_mean_length_from (values : list pyfloat) (w : nat) (minp : Z)
    (i todo : nat) (acc : MeanAcc) :
  length (roll_mean_from values w minp i todo acc) = todo.
Proof.
  revert i acc. induction todo as [|todo IH]; intros i acc; simpl; [reflexivity|].
  now rewrite IH.
Qed.

Lemma roll_mean_length (values : list pyfloat) (w : nat) :
  length (roll_mean values w) = length values.
Proof. apply roll_mean_length_from. Qed.

Lemma roll_mean_lookup (values : list pyfloat) (w i : nat) :
  (1 <= w)%nat -> (i < length values)%nat ->
  exists out, roll_mean values w !! i = Some out /\ mean_at values w i out.
Proof.
  intros Hw Hi.
  pose proof (roll_mean_from_spec values w Hw (length values) 0 empty_acc
                eq_refl (or_introl eq_refl)) as Hall.
  assert (Hseq : seq 0 (length values) !! i = Some i) by now rewrite lookup_seq_lt.
  destruct (Forall2_lookup_l _ _ _ _ _ Hall Hseq) as (out & Hout & Hmean).
  exists out. split; [exact Hout | exact Hmean].
Qed.



Lemma calculate_sma_numeric (df : DataFrame) (column : string) (c : Column)
    (values : list pyfloat) (window : Z) :
  columns df !! column = Some c ->
  col_to_float c = Returns values ->
  0 <= window ->
  calculate_sma df column window = Returns (roll_mean values (Z.to_nat window)).
Proof.
  intros Hc Hvalues Hw. unfold calculate_sma, getitem. rewrite Hc. simpl.
  replace (window <? 0) with false by (symmetry; apply Z.ltb_ge; lia).
  now rewrite Hvalues.
Qed.



(** ** Input errors *)




(** ** Signal generation *)

Lemma frame_at_insert (h : heap) (r : nat) (df : DataFrame) :
  frame_at (<[r := df]> h) r = df.
Proof. unfold frame_at. now rewrite lookup_insert_eq. Qed.

Lemma frame_at_lookup (h : heap) (r : nat) (df : DataFrame) :
  h !! r = Some df -> frame_at h r = df.
Proof. intros H. unfold frame_at. now rewrite H. Qed.

Lemma getitem_lookup (df : DataFrame) (key : string) (c : Column) :
  columns df !! key = Some c -> getitem df key = Returns c.
Proof. intros H. unfold getitem. now rewrite H. Qed.

Lemma setitem_lookup_eq (df : DataFrame) (key : string) (c : Column) :
  columns (setitem df key c) !! key = Some c.
Proof. apply lookup_insert_eq. Qed.

Lemma setitem_lookup_ne (df : DataFrame) (key key' : string) (c : Column) :
  key <> key' -> columns (setitem df key c) !! key' = columns df !! key'.
Proof. intros H. now apply lookup_insert_ne. Qed.

Lemma setitem_setitem (df : DataFrame) (key : string) (c c' : Column) :
  setitem (setitem df key c) key c' = setitem df key c'.
Proof. unfold setitem. simpl. now rewrite insert_insert_eq. Qed.

Lemma gt_mask_floats (df : DataFrame) (a b : string) (xa xb : list pyfloat) :
  columns df !! a = Some (ColFloat xa) ->
  columns df !! b = Some (ColFloat xb) ->
  gt_mask df a b = Returns (zip_with fgt xa xb).
Proof.
  intros Ha Hb. unfold gt_mask.
  now rewrite (getitem_lookup df a _ Ha), (getitem_lookup df b _ Hb).
Qed.

Lemma loc_assign_int (df : DataFrame) (mask : list bool) (key : string) (v : Z)
    (zs : list Z) :
  columns df !! key = Some (ColInt zs) ->
  loc_assign df mask key v
  = Returns (setitem df key
               (ColInt (zip_with (fun (m : bool) z => if m then v else z) mask zs))).
Proof. intros H. unfold loc_assign. now rewrite (getitem_lookup df key _ H). Qed.

(** The column the three assignments leave behind. *)
Lemma generate_signals_run (h : heap) (df : nat) (f : DataFrame)
    (sma10 sma20 : list pyfloat) :
  h !! df = Some f ->
  columns f !! "SMA_10"%string = Some (ColFloat sma10) ->
  columns f !! "SMA_20"%string = Some (ColFloat sma20) ->
  generate_signals df h =
  Ok df (<[df :=
           setitem f "signal"
             (ColInt
                (zip_with (fun (m : bool) z => if m then -1 else z)
                   (zip_with fgt sma20 sma10)
                   (zip_with (fun (m : bool) z => if m then 1 else z)
                      (zip_with fgt sma10 sma20)
                      (replicate (nrows f) 0))))]> h).
Proof.
  intros Hf H10 H20.
  unfold generate_signals, mbind, heap_bind, mret, heap_ret, read, write, lift.
  rewrite (frame_at_lookup h df f Hf), frame_at_insert.
  rewrite (gt_mask_floats _ "SMA_10" "SMA_20" sma10 sma20)
    by (rewrite setitem_lookup_ne by done; assumption).
  rewrite (loc_assign_int _ _ "signal" 1 (replicate (nrows f) 0))
    by apply setitem_lookup_eq.
  rewrite frame_at_insert, setitem_setitem.
  rewrite (gt_mask_floats _ "SMA_20" "SMA_10" sma20 sma10)
    by (rewrite setitem_lookup_ne by done; assumption).
  rewrite (loc_assign_int _ _ "signal" (-1) _) by apply setitem_lookup_eq.
  rewrite setitem_setitem, !insert_insert_eq. reflexivity.
Qed.

Lemma Qltb_asym (x y : Q) : Qltb y x = true -> Qltb x y = false.
Proof. intros H. apply Qltb_lt in H. apply Qltb_ge. now apply Qlt_le_weak. Qed.

Lemma signal_rule_of_masks (a b : pyfloat) :
  (if fgt b a then -1 else if fgt a b then 1 else 0) = signal_rule a b.
Proof.
  destruct a as [x|], b as [y|]; simpl; try reflexivity.
  destruct (Qltb y x) eqn:Hbuy.
  - now rewrite (Qltb_asym x y Hbuy).
  - reflexivity.
Qed.

Lemma signal_column_rule (sma10 sma20 : list pyfloat) (n : nat) :
  length sma10 = n -> length sma20 = n ->
  zip_with (fun (m : bool) z => if m then -1 else z)
    (zip_with fgt sma20 sma10)
    (zip_with (fun (m : bool) z => if m then 1 else z)
       (zip_with fgt sma10 sma20) (replicate n 0))
  = zip_with signal_rule sma10 sma20.
Proof.
  revert sma20 n.
  induction sma10 as [|a sma10 IH]; intros [|b sma20] [|n] H10 H20;
    try discriminate; [reflexivity|].
  simpl. f_equal.
  - apply signal_rule_of_masks.
  - apply IH; simpl in *; lia.
Qed.

(** C7: the signal column is the rule of the specification applied bar
    by bar to the two averages of that bar alone: Buy exactly when both
    are defined and SMA10 > SMA20, Sell exactly when both are defined
    and SMA20 > SMA10, Flat otherwise, hence Flat when they are equal or
    either is undefined. *)
Theorem generate_signals_rule (h : heap) (df : nat) (f : DataFrame)
    (sma10 sma20 : list pyfloat) :
  h !! df = Some f ->
  columns f !! "SMA_10"%string = Some (ColFloat sma10) ->
  columns f !! "SMA_20"%string = Some (ColFloat sma20) ->
  length sma10 = nrows f ->
  length sma20 = nrows f ->
  generate_signals df h
  = Ok df (<[df := setitem f "signal" (ColInt (zip_with signal_rule sma10 sma20))]> h) /\
  length (zip_with signal_rule sma10 sma20) = nrows f /\
  (forall i a b, sma10 !! i = Some a -> sma20 !! i = Some b ->
     zip_with signal_rule sma10 sma20 !! i = Some (signal_rule a b)) /\
  (forall a b : pyfloat,
     (signal_rule a b = 1 <-> exists x y, a = Some x /\ b = Some y /\ (y < x)%Q) /\
     (signal_rule a b = -1 <-> exists x y, a = Some x /\ b = Some y /\ (x < y)%Q) /\
     (signal_rule a b = 0 \/ signal_rule a b = 1 \/ signal_rule a b = -1) /\
     (a = None \/ b = None -> signal_rule a b = 0) /\
     (forall x y, a = Some x -> b = Some y -> (x == y)%Q -> signal_rule a b = 0)).
Proof.
  intros Hf H10 H20 Hlen10 Hlen20. split; [|split; [|split]].
  - rewrite (generate_signals_run h df f sma10 sma20 Hf H10 H20).
    now rewrite (signal_column_rule sma10 sma20 (nrows f)).
  - rewrite length_zip_with. lia.
  - intros i a b Ha Hb. rewrite lookup_zip_with, Ha. simpl. now rewrite Hb.
  - intros a b. destruct a as [x|], b as [y|]; simpl.
    2-4: repeat split; try (intros; discriminate); try (now left);
         try (intros (x' & y' & ? & ? & _); discriminate); try reflexivity;
         intros ? ? ? ?; discriminate.
    destruct (Qltb y x) eqn:Hbuy; [|destruct (Qltb x y) eqn:Hsell].
    + apply Qltb_lt in Hbuy. repeat split; try (intros; discriminate); auto.
      * intros _. now exists x, y.
      * intros (x' & y' & [= <-] & [= <-] & Hlt).
        exfalso. apply (Qlt_irrefl x). now apply Qlt_trans with y.
      * intros [?|?]; discriminate.
      * intros x' y' [= <-] [= <-] Heq. rewrite Heq in Hbuy.
        now apply Qlt_irrefl in Hbuy.
    + apply Qltb_lt in Hsell. apply Qltb_ge in Hbuy.
      repeat split; try (intros; discriminate); auto.
      * intros (x' & y' & [= <-] & [= <-] & Hlt).
        exfalso. apply (Qlt_irrefl x). now apply Qlt_trans with y.
      * intros _. now exists x, y.
      * intros [?|?]; discriminate.
      * intros x' y' [= <-] [= <-] Heq. rewrite Heq in Hsell.
        now apply Qlt_irrefl in Hsell.
    + apply Qltb_ge in Hbuy, Hsell.
      repeat split; try (intros; discriminate); auto.
      * intros (x' & y' & [= <-] & [= <-] & Hlt).
        exfalso. now apply (Qlt_not_le _ _ Hlt).
      * intros (x' & y' & [= <-] & [= <-] & Hlt).
        exfalso. now apply (Qlt_not_le _ _ Hlt).
Qed.

Lemma generate_signals_rule_witness :
  let f := setitem (setitem (mkFrame 3 ∅) "SMA_10"
                      (ColFloat [None; Some 5%Q; Some 4%Q]))
                   "SMA_20" (ColFloat [None; Some 3%Q; Some 6%Q]) in
  let h : heap := <[7%nat := f]> ∅ in
  h !! 7%nat = Some f /\
  generate_signals 7 h
  = Ok 7%nat (<[7%nat := setitem f "signal" (ColInt [0; 1; -1])]> h).
Proof.
  intros f h.
  assert (Hf : h !! 7%nat = Some f) by reflexivity.
  split; [exact Hf|].
  exact (proj1 (generate_signals_rule h 7 f
                  [None; Some 5%Q; Some 4%Q] [None; Some 3%Q; Some 6%Q]
                  Hf eq_refl eq_refl eq_refl eq_refl)).
Defined.

(** ** The quality gate *)

Section OhlcvFrame.
Variable bars : list Bar.

Lemma ohlcv_timestamp :
  columns (ohlcv_frame bars) !! "timestamp"%string
  = Some (ColTime (List.map bar_timestamp bars)).
Proof. apply lookup_insert_eq. Qed.

Lemma ohlcv_open :
  columns (ohlcv_frame bars) !! "open"%string
  = Some (ColFloat (List.map bar_open bars)).
Proof.
  unfold ohlcv_frame. simpl columns.
  rewrite lookup_insert_ne by done. apply lookup_insert_eq.
Qed.

Lemma ohlcv_high :
  columns (ohlcv_frame bars) !! "high"%string
  = Some (ColFloat (List.map bar_high bars)).
Proof.
  unfold ohlcv_frame. simpl columns.
  do 2 rewrite lookup_insert_ne by done. apply lookup_insert_eq.
Qed.

Lemma ohlcv_low :
  columns (ohlcv_frame bars) !! "low"%string
  = Some (ColFloat (List.map bar_low bars)).
Proof.
  unfold ohlcv_frame. simpl columns.
  do 3 rewrite lookup_insert_ne by done. apply lookup_insert_eq.
Qed.

Lemma ohlcv_close :
  columns (ohlcv_frame bars) !! "close"%string
  = Some (ColFloat (List.map bar_close bars)).
Proof.
  unfold ohlcv_frame. simpl columns.
  do 4 rewrite lookup_insert_ne by done. apply lookup_insert_eq.
Qed.

Lemma ohlcv_volume :
  columns (ohlcv_frame bars) !! "volume"%string
  = Some (ColFloat (List.map bar_volume bars)).
Proof.
  unfold ohlcv_frame. simpl columns.
  do 5 rewrite lookup_insert_ne by done. apply lookup_insert_eq.
Qed.

(** The frame has the six columns and no other. *)
Lemma ohlcv_columns (key : string) (c : Column) :
  columns (ohlcv_frame bars) !! key = Some c ->
  c = ColTime (List.map bar_timestamp bars)
  \/ c = ColFloat (List.map bar_open bars)
  \/ c = ColFloat (List.map bar_high bars)
  \/ c = ColFloat (List.map bar_low bars)
  \/ c = ColFloat (List.map bar_close bars)
  \/ c = ColFloat (List.map bar_volume bars).
Proof.
  unfold ohlcv_frame. simpl columns. intros H.
  repeat (apply lookup_insert_Some in H as [[_ <-]|[_ H]]; [tauto|]).
  now rewrite lookup_empty in H.
Qed.
End OhlcvFrame.

Lemma any_map_map {A B} (f : B -> bool) (g : A -> B) (l : list A) :
  any (List.map f (List.map g l)) = existsb (fun a => f (g a)) l.
Proof.
  unfold any. induction l as [|a l IH]; simpl; [reflexivity|]. now rewrite IH.
Qed.

Lemma any_map_false {A} (l : list A) : any (List.map (fun _ => false) l) = false.
Proof. unfold any. induction l as [|a l IH]; simpl; [reflexivity | exact IH]. Qed.

Lemma isnull_any_ohlcv (bars : list Bar) :
  isnull_any (ohlcv_frame bars) = has_missing bars.
Proof.
  unfold isnull_any, has_missing.
  destruct (_ || _) eqn:Hspec.
  - apply bool_decide_eq_true_2.
    repeat (apply orb_prop in Hspec as [Hspec|Hspec]).
    + eapply map_Exists_lookup_2; [apply ohlcv_open|].
      simpl. now rewrite any_map_map.
    + eapply map_Exists_lookup_2; [apply ohlcv_high|].
      simpl. now rewrite any_map_map.
    + eapply map_Exists_lookup_2; [apply ohlcv_low|].
      simpl. now rewrite any_map_map.
    + eapply map_Exists_lookup_2; [apply ohlcv_close|].
      simpl. now rewrite any_map_map.
    + eapply map_Exists_lookup_2; [apply ohlcv_volume|].
      simpl. now rewrite any_map_map.
  - apply bool_decide_eq_false_2. intros Hex.
    apply map_Exists_lookup_1 in Hex as (key & c & Hc & Hnull).
    repeat (apply orb_false_elim in Hspec as [Hspec ?]).
    apply ohlcv_columns in Hc as [-> | [-> | [-> | [-> | [-> | ->]]]]]; simpl in Hnull;
      rewrite ?any_map_false, ?any_map_map in Hnull; congruence.
Qed.

Lemma nonpositive_any_ohlcv (bars : list Bar) :
  nonpositive_any (ohlcv_frame bars) = Returns (has_nonpositive bars).
Proof.
  unfold nonpositive_any, getitems, numeric_columns. simpl mapM.
  rewrite (getitem_lookup _ _ _ (ohlcv_open bars)),
    (getitem_lookup _ _ _ (ohlcv_high bars)),
    (getitem_lookup _ _ _ (ohlcv_low bars)),
    (getitem_lookup _ _ _ (ohlcv_close bars)),
    (getitem_lookup _ _ _ (ohlcv_volume bars)).
  simpl. unfold has_nonpositive. rewrite !any_map_map.
  now rewrite orb_false_r, !orb_assoc.
Qed.

(** An entry is marked by [duplicated] exactly when the list, read after
    the entries already seen, repeats something. *)
Lemma duplicated_after_none (seen l : list Z) :
  any (duplicated_after Z.eqb seen l) = false <->
  NoDup l /\ (forall x, x ∈ l -> x ∉ seen).
Proof.
  revert seen. induction l as [|x l IH]; intros seen.
  - simpl. split; [intros _|reflexivity].
    split; [constructor | intros y Hy; inversion Hy].
  - unfold any in *. simpl. rewrite orb_false_iff, IH. split.
    + intros (Hseen & Hnd & Hfresh).
      assert (Hx : x ∉ seen).
      { intros Hin. apply list_elem_of_In in Hin.
        assert (existsb (Z.eqb x) seen = true); [|congruence].
        apply existsb_exists. exists x. split; [exact Hin | apply Z.eqb_refl]. }
      split.
      * constructor; [|exact Hnd]. intros Hin. apply (Hfresh x Hin). now left.
      * intros y Hy. apply elem_of_cons in Hy as [->|Hy]; [exact Hx|].
        intros Hin. apply (Hfresh y Hy). now right.
    + intros (Hnd & Hfresh). apply NoDup_cons in Hnd as [Hx Hnd].
      split; [|split; [exact Hnd|]].
      * destruct (existsb (Z.eqb x) seen) eqn:E; [|reflexivity].
        apply existsb_exists in E as (y & Hy & Hxy). apply Z.eqb_eq in Hxy. subst y.
        exfalso. apply (Hfresh x); [now left | now apply list_elem_of_In].
      * intros y Hy Hin. apply elem_of_cons in Hin as [->|Hin]; [contradiction|].
        apply (Hfresh y); [now right | exact Hin].
Qed.

Lemma any_duplicated (bars : list Bar) :
  any (duplicated Z.eqb (List.map bar_timestamp bars)) = has_duplicate_timestamp bars.
Proof.
  unfold has_duplicate_timestamp, duplicated.
  destruct (any _) eqn:Hany.
  - symmetry. apply negb_true_iff, bool_decide_eq_false_2. intros Hnd.
    assert (any (duplicated_after Z.eqb [] (List.map bar_timestamp bars)) = false);
      [|congruence].
    apply duplicated_after_none. split; [exact Hnd|]. intros x _ Hin. inversion Hin.
  - symmetry. apply negb_false_iff, bool_decide_eq_true_2.
    now apply duplicated_after_none in Hany as [Hnd _].
Qed.

Lemma count_true_positive (bs : list bool) : any bs = true -> 1 <= count_true bs.
Proof.
  unfold any, count_true. induction bs as [|[|] bs IH]; simpl; intros H.
  - discriminate.
  - lia.
  - now apply IH.
Qed.

Lemma verify_data_quality_ohlcv (bars : list Bar) :
  verify_data_quality (ohlcv_frame bars) =
  Returns
    {| total_rows := length bars;
       missing_values :=
         (fun c => count_true (col_isnull c)) <$> columns (ohlcv_frame bars);
       duplicate_timestamps :=
         count_true (duplicated Z.eqb (List.map bar_timestamp bars));
       issues :=
         append_if (has_nonpositive bars) issue_nonpositive
           (append_if (has_duplicate_timestamp bars) issue_duplicates
              (append_if (has_missing bars) issue_missing [])) |}.
Proof.
  unfold verify_data_quality.
  rewrite (getitem_lookup _ _ _ (ohlcv_timestamp bars)). simpl.
  rewrite nonpositive_any_ohlcv. simpl.
  now rewrite isnull_any_ohlcv, any_duplicated.
Qed.

Lemma lookup_map {A B} (f : A -> B) (l : list A) (i : nat) :
  List.map f l !! i = f <$> (l !! i).
Proof.
  revert i. induction l as [|a l IH]; intros [|i]; simpl; try reflexivity. apply IH.
Qed.

Lemma shared_timestamp_detected (bars : list Bar) (i j : nat) (b b' : Bar) :
  i <> j -> bars !! i = Some b -> bars !! j = Some b' ->
  bar_timestamp b = bar_timestamp b' ->
  has_duplicate_timestamp bars = true.
Proof.
  intros Hij Hi Hj Hts. unfold has_duplicate_timestamp.
  apply negb_true_iff, bool_decide_eq_false_2. intros Hnd.
  apply Hij. apply (proj1 (NoDup_alt _) Hnd i j (bar_timestamp b)).
  - now rewrite lookup_map, Hi.
  - now rewrite lookup_map, Hj, Hts.
Qed.

Lemma append_if_app (cond : bool) (s : string) (l : list string) :
  append_if cond s l = l ++ (if cond then [s] else []).
Proof. destruct cond; simpl; [reflexivity | now rewrite app_nil_r]. Qed.

(** C8: on the frame of any bar series the gate returns a report.
    [total_rows] is the number of bars, duplicates included; each of the
    three issue strings is present exactly when its own check finds
    something, whatever the other checks find; a timestamp carried by
    two bars gives a duplicate count of at least one and the duplicate
    issue; on the empty series every count is zero and no issue is
    listed. *)
Theorem verify_data_quality_report (bars : list Bar) :
  exists report,
    verify_data_quality (ohlcv_frame bars) = Returns report /\
    total_rows report = length bars /\
    issues report
    = (if has_missing bars then [issue_missing] else [])
      ++ (if has_duplicate_timestamp bars then [issue_duplicates] else [])
      ++ (if has_nonpositive bars then [issue_nonpositive] else []) /\
    ((exists i j b b', i <> j /\ bars !! i = Some b /\ bars !! j = Some b' /\
                       bar_timestamp b = bar_timestamp b') ->
       1 <= duplicate_timestamps report /\ issue_duplicates ∈ issues report) /\
    (bars = [] ->
       report =
       {| total_rows := 0;
          missing_values :=
            list_to_map [("timestamp", 0); ("open", 0); ("high", 0);
                         ("low", 0); ("close", 0); ("volume", 0)]%string;
          duplicate_timestamps := 0;
          issues := [] |}).
Proof.
  eexists. split; [apply verify_data_quality_ohlcv|]. simpl.
  split; [reflexivity|]. split; [|split].
  - rewrite !append_if_app. simpl. now rewrite <- app_assoc.
  - intros (i & j & b & b' & Hij & Hi & Hj & Hts).
    pose proof (shared_timestamp_detected bars i j b b' Hij Hi Hj Hts) as Hdup.
    split.
    + apply count_true_positive. now rewrite any_duplicated.
    + rewrite Hdup, !append_if_app. simpl. set_solver.
  - intros ->. vm_compute. reflexivity.
Qed.

Lemma verify_data_quality_report_witness :
  let bars := [mkBar 5 (Some 1%Q) (Some 2%Q) (Some 1%Q) (Some 2%Q) (Some 9%Q);
               mkBar 5 (Some 2%Q) (Some 3%Q) (Some 1%Q) (Some 3%Q) (Some 4%Q)] in
  exists report,
    verify_data_quality (ohlcv_frame bars) = Returns report /\
    total_rows report = 2%nat /\
    1 <= duplicate_timestamps report /\
    issue_duplicates ∈ issues report.
Proof.
  intros bars.
  destruct (verify_data_quality_report bars) as (report & Hrun & Hrows & _ & Hdup & _).
  exists report. split; [exact Hrun|]. split; [exact Hrows|].
  apply Hdup. do 4 eexists.
  split; [|split; [|split]];
    [|exact (eq_refl : bars !! 0%nat = Some _)
     |exact (eq_refl : bars !! 1%nat = Some _)|reflexivity].
  discriminate.
Defined.

(** ** Who holds the frame *)

(** After a step of a [Heap] computation has been rewritten, expose the
    next one and read back the frame that was just stored. *)
Ltac heap_step := cbn beta iota; rewrite ?frame_at_insert.

(** The frame at the end of [main]: the one [fetch_ohlcv] built, with
    three columns added to it. *)
Lemma main_run (bars : list Bar) (h : heap) :
  let sma10 := roll_mean (List.map bar_close bars) 10 in
  let sma20 := roll_mean (List.map bar_close bars) 20 in
  let sig := zip_with signal_rule sma10 sma20 in
  let after :=
    setitem (setitem (setitem (ohlcv_frame bars) "SMA_10" (ColFloat sma10))
               "SMA_20" (ColFloat sma20)) "signal" (ColInt sig) in
  exists report,
    verify_data_quality (ohlcv_frame bars) = Returns report /\
    main bars h
    = Ok (report, fresh (dom h),
          simulate_trading
            (zip_rows (List.map bar_timestamp bars) (List.map bar_close bars) sig)
            (Some 10000%Q))
         (<[fresh (dom h) := after]> h).
Proof.
  intros sma10 sma20 sig after.
  eexists. split; [apply verify_data_quality_ohlcv|].
  unfold main, mbind, heap_bind, mret, heap_ret, read, write, lift, alloc.
  set (r := fresh (dom h)).
  rewrite !frame_at_insert, verify_data_quality_ohlcv.
  heap_step.
  rewrite (calculate_sma_numeric _ "close" _ _ 10 (ohlcv_close bars) eq_refl) by lia.
  heap_step.
  rewrite (calculate_sma_numeric _ "close" (ColFloat (List.map bar_close bars))
             (List.map bar_close bars) 20) by
    (first [rewrite setitem_lookup_ne by done; apply ohlcv_close | reflexivity | lia]).
  heap_step.
  change (Z.to_nat 10) with 10%nat. change (Z.to_nat 20) with 20%nat.
  fold sma10 sma20.
  rewrite (generate_signals_run _ r
             (setitem (setitem (ohlcv_frame bars) "SMA_10" (ColFloat sma10))
                "SMA_20" (ColFloat sma20)) sma10 sma20);
    [|apply lookup_insert_eq
     |rewrite setitem_lookup_ne by done; apply setitem_lookup_eq
     |apply setitem_lookup_eq].
  rewrite (signal_column_rule sma10 sma20 _)
    by (unfold sma10, sma20; simpl; now rewrite roll_mean_length, length_map).
  fold sig after. heap_step.
  unfold iterrows.
  rewrite (getitem_lookup after "timestamp" (ColTime (List.map bar_timestamp bars)))
    by (unfold after; rewrite !setitem_lookup_ne by done; apply ohlcv_timestamp).
  rewrite (getitem_lookup after "close" (ColFloat (List.map bar_close bars)))
    by (unfold after; rewrite !setitem_lookup_ne by done; apply ohlcv_close).
  rewrite (getitem_lookup after "signal" (ColInt sig))
    by (unfold after; apply setitem_lookup_eq).
  simpl. now rewrite !insert_insert_eq.
Qed.

Lemma generate_signals_same_reference (df df' : nat) (h h' : heap) :
  generate_signals df h = Ok df' h' -> df' = df.
Proof.
  unfold generate_signals, mbind, heap_bind, mret, heap_ret, read, write, lift.
  repeat match goal with
         | |- context [match ?c with Returns _ => _ | Raises _ => _ end] =>
             destruct c; try discriminate
         end.
  now intros [= <- _].
Qed.

Lemma ohlcv_no_derived_column (bars : list Bar) (key : string) :
  key = "SMA_10"%string \/ key = "SMA_20"%string \/ key = "signal"%string ->
  columns (ohlcv_frame bars) !! key = None.
Proof.
  intros [-> | [-> | ->]]; unfold ohlcv_frame; simpl columns;
    rewrite !lookup_insert_ne by done; apply lookup_empty.
Qed.

(** C9, as stated, fails: after signal generation the object the gate
    assessed carries three more columns. *)
Lemma assessed_frame_gains_columns :
  let bars := [mkBar 1 (Some 7%Q) (Some 9%Q) (Some 6%Q) (Some 8%Q) (Some 3%Q)] in
  exists report r final h',
    main bars ∅ = Ok (report, r, final) h' /\
    verify_data_quality (ohlcv_frame bars) = Returns report /\
    columns (ohlcv_frame bars) !! "signal"%string = None /\
    columns (frame_at h' r) !! "signal"%string = Some (ColInt [0]) /\
    frame_at h' r <> ohlcv_frame bars.
Proof.
  intros bars.
  destruct (main_run bars ∅) as (report & Hgate & Hrun).
  do 4 eexists. split; [exact Hrun|]. split; [exact Hgate|].
  rewrite frame_at_insert.
  split; [reflexivity|]. split; [reflexivity|].
  intros Heq. apply (f_equal (fun f => columns f !! "signal"%string)) in Heq.
  rewrite setitem_lookup_eq in Heq. discriminate Heq.
Qed.

(** C9 (amended): [calculate_sma] only reads its frame and returns a new
    column, but [main] stores the two averages into the very frame the
    gate assessed, and [generate_signals] adds the signal column to that
    same frame and returns the reference it was given.  The six fetched
    columns and the row count are left as the gate saw them, the report
    is the one computed before any column was added, and no other frame
    in the store is touched. *)
Theorem main_adds_columns_in_place (bars : list Bar) (h : heap) :
  exists report final after,
    main bars h = Ok (report, fresh (dom h), final) (<[fresh (dom h) := after]> h) /\
    h !! fresh (dom h) = None /\
    verify_data_quality (ohlcv_frame bars) = Returns report /\
    nrows after = nrows (ohlcv_frame bars) /\
    (forall key c, columns (ohlcv_frame bars) !! key = Some c ->
                   columns after !! key = Some c) /\
    (forall key, is_Some (columns after !! key) <->
                 is_Some (columns (ohlcv_frame bars) !! key)
                 \/ key = "SMA_10"%string \/ key = "SMA_20"%string
                 \/ key = "signal"%string) /\
    (forall r, r <> fresh (dom h) -> (<[fresh (dom h) := after]> h) !! r = h !! r) /\
    (forall df df' h0 h0', generate_signals df h0 = Ok df' h0' -> df' = df).
Proof.
  destruct (main_run bars h) as (report & Hgate & Hrun).
  do 3 eexists. split; [exact Hrun|].
  split; [apply not_elem_of_dom, is_fresh|].
  split; [exact Hgate|]. split; [reflexivity|].
  split; [|split; [|split]].
  - intros key c Hc.
    assert (Hkey : key <> "SMA_10"%string /\ key <> "SMA_20"%string
                   /\ key <> "signal"%string).
    { repeat split; intros ->;
        rewrite ohlcv_no_derived_column in Hc by tauto; discriminate. }
    destruct Hkey as (H10 & H20 & Hsig).
    now rewrite !setitem_lookup_ne by done.
  - intros key.
    destruct (decide (key = "signal"%string)) as [->|Hsig].
    { rewrite setitem_lookup_eq. split; [tauto | intros _; eauto]. }
    rewrite setitem_lookup_ne by done.
    destruct (decide (key = "SMA_20"%string)) as [->|H20].
    { rewrite setitem_lookup_eq. split; [tauto | intros _; eauto]. }
    rewrite setitem_lookup_ne by done.
    destruct (decide (key = "SMA_10"%string)) as [->|H10].
    { rewrite setitem_lookup_eq. split; [tauto | intros _; eauto]. }
    rewrite setitem_lookup_ne by done. tauto.
  - intros r Hr. now rewrite lookup_insert_ne.
  - apply generate_signals_same_reference.
Qed.

Lemma main_adds_columns_in_place_witness :
  let bars := [mkBar 1 (Some 7%Q) (Some 9%Q) (Some 6%Q) (Some 8%Q) (Some 3%Q);
               mkBar 2 (Some 8%Q) (Some 9%Q) (Some 7%Q) (Some 9%Q) (Some 2%Q)] in
  columns (ohlcv_frame bars) !! "close"%string
  = Some (ColFloat [Some 8%Q; Some 9%Q]) /\
  exists report final after,
    main bars ∅ = Ok (report, fresh (dom (∅ : heap)), final)
                     (<[fresh (dom (∅ : heap)) := after]> ∅) /\
    columns after !! "close"%string = Some (ColFloat [Some 8%Q; Some 9%Q]).
Proof.
  intros bars.
  assert (Hclose : columns (ohlcv_frame bars) !! "close"%string
                   = Some (ColFloat [Some 8%Q; Some 9%Q])) by reflexivity.
  split; [exact Hclose|].
  destruct (main_adds_columns_in_place bars ∅)
    as (report & final & after & Hrun & _ & _ & _ & Hkept & _).
  exists report, final, after. split; [exact Hrun|].
  exact (Hkept "close"%string _ Hclose).
Defined.

(* ================================================================= *)
(** * Further properties of the program *)

(** ** The trading loop beyond the final bar *)

Lemma trading_loop_flat (ts : Z) (rows : list Row) (st : Account) :
  position st = 0 ->
  List.Forall (fun row => signal row <> 1 /\ signal row <> -1) rows ->
  trading_loop ts rows st = st.
Proof.
  intros Hflat Hrows. induction Hrows as [|row rows [Hbuy Hsell] _ IH]; simpl;
    [reflexivity|].
  destruct (flt _ _); [reflexivity|].
  assert (Hstep : loop_body ts row st = st).
  { unfold loop_body, entry_flip, close_out.
    replace (signal row =? 1) with false by (symmetry; now apply Z.eqb_neq).
    replace (signal row =? -1) with false by (symmetry; now apply Z.eqb_neq).
    simpl. rewrite Hflat. simpl. now rewrite andb_false_r. }
  rewrite Hstep. exact IH.
Qed.

(** X1: a series that carries no Buy and no Sell signal leaves the
    account exactly as it started, whatever the initial balance and
    whatever the timestamps. *)
Theorem no_signal_no_trade (df : list Row) (initial_balance : pyfloat) :
  List.Forall (fun row => signal row <> 1 /\ signal row <> -1) df ->
  final_account df initial_balance = initial_account initial_balance /\
  simulate_trading df initial_balance = initial_balance.
Proof.
  intros Hrows.
  assert (H : final_account df initial_balance = initial_account initial_balance)
    by now apply trading_loop_flat.
  split; [exact H|]. unfold simulate_trading. now rewrite H.
Qed.

Lemma no_signal_no_trade_witness :
  simulate_trading
    [mkRow 1 (Some 100%Q) 0; mkRow 1 (Some 300%Q) 2; mkRow 5 (Some 50%Q) 0]
    (Some 4000%Q) = Some 4000%Q.
Proof.
  refine (proj2 (no_signal_no_trade _ (Some 4000%Q) _)).
  repeat constructor; discriminate.
Defined.

(** X2: the balance floor is final.  Once the loop reaches some bar with
    a balance below 1000, the state at that bar is the result of the
    run: no later bar is looked at. *)
Theorem floor_stop_is_final (df : list Row) (initial_balance : pyfloat) (k : nat) :
  flt (balance (account_before df initial_balance k)) (Some 1000%Q) = true ->
  final_account df initial_balance = account_before df initial_balance k.
Proof.
  intros Hfloor. unfold final_account, account_before in *.
  rewrite <- (take_drop k df) at 2.
  rewrite trading_loop_app. now apply trading_loop_stopped.
Qed.

Lemma floor_stop_is_final_witness :
  let df := [mkRow 1 (Some 2000%Q) 1; mkRow 9 (Some 100%Q) 0;
             mkRow 8 (Some 5000%Q) (-1); mkRow 9 (Some 100%Q) 0] in
  flt (balance (account_before df (Some 1500%Q) 2)) (Some 1000%Q) = true /\
  simulate_trading df (Some 1500%Q) = Some (-400)%Q.
Proof.
  intros df.
  assert (Hfloor : flt (balance (account_before df (Some 1500%Q) 2)) (Some 1000%Q) = true)
    by reflexivity.
  split; [exact Hfloor|].
  unfold simulate_trading.
  rewrite (floor_stop_is_final df (Some 1500%Q) 2 Hfloor). reflexivity.
Defined.

Lemma trading_loop_nan (ts : Z) (rows : list Row) (st : Account) :
  balance st = None -> balance (trading_loop ts rows st) = None.
Proof.
  revert st. induction rows as [|row rows IH]; intros st Hnan; simpl; [exact Hnan|].
  rewrite Hnan. simpl. apply IH.
  unfold loop_body, close_out. destruct (_ && _); simpl.
  - rewrite !entry_flip_balance, Hnan. repeat case_match; reflexivity.
  - now rewrite entry_flip_balance.
Qed.

(** The side the loop holds after a prefix does not depend on the
    balance as long as the floor never fires; with a NaN balance it
    never does, so every bar is acted on. *)
Lemma trading_loop_nan_acts (ts : Z) (rows : list Row) (row : Row) (st : Account) :
  balance st = None ->
  trading_loop ts (rows ++ [row]) st
  = loop_body ts row (trading_loop ts rows st).
Proof.
  intros Hnan. rewrite trading_loop_app. simpl.
  now rewrite (trading_loop_nan ts rows st Hnan).
Qed.

(** X3: a NaN balance disables the balance floor.  [NaN < 1000] is
    False, so the loop never breaks, every bar is acted on, and the
    result is NaN. *)
Theorem nan_balance_never_stops (df : list Row) (row : Row) :
  simulate_trading df None = None /\
  final_account (df ++ [row]) None
  = loop_body (timestamp row) row
      (trading_loop (timestamp row) df (initial_account None)).
Proof.
  split.
  - now apply trading_loop_nan.
  - unfold final_account. rewrite last_timestamp_snoc.
    now apply trading_loop_nan_acts.
Qed.

(** With strictly increasing timestamps and a balance at or above the
    floor, the run is the entries and flips of all bars followed by one
    close-out on the last. *)
Lemma final_account_increasing (pre : list Row) (final : Row) (q : Q) :
  increasing (List.map timestamp (pre ++ [final])) = true ->
  (1000 <= q)%Q ->
  balance (trading_loop (timestamp final) pre (initial_account (Some q))) = Some q /\
  final_account (pre ++ [final]) (Some q)
  = close_out true final
      (entry_flip final (trading_loop (timestamp final) pre (initial_account (Some q)))).
Proof.
  intros Hinc Hq.
  pose proof (increasing_rows_before_last pre final Hinc) as Hpre.
  assert (Hbal : balance (trading_loop (timestamp final) pre (initial_account (Some q)))
                 = Some q)
    by now rewrite trading_loop_balance_other_days.
  split; [exact Hbal|].
  unfold final_account. rewrite last_timestamp_snoc, trading_loop_app.
  rewrite trading_loop_single by (rewrite Hbal; now apply flt_floor_passes).
  unfold loop_body.
  replace (is_last_day (timestamp final) final) with true; [reflexivity|].
  symmetry. now apply is_last_day_true.
Qed.






(** X5: a position opened or flipped on the final bar earns nothing.
    With strictly increasing timestamps and an initial balance of at
    least 1000, if the final bar's signal changes the side, the entry
    and the forced close-out happen at the same close and the balance
    returned equals the initial one. *)
Theorem entry_on_final_bar_earns_nothing (pre : list Row) (final : Row) (q c : Q) :
  increasing (List.map timestamp (pre ++ [final])) = true ->
  (1000 <= q)%Q ->
  close final = Some c ->
  let before := account_before (pre ++ [final]) (Some q) (length pre) in
  (signal final = 1 /\ position before <= 0) \/
  (signal final = -1 /\ 0 <= position before) ->
  same_value (simulate_trading (pre ++ [final]) (Some q)) (Some q).
Proof.
  intros Hinc Hq Hclose before Hentry.
  destruct (final_account_increasing pre final q Hinc Hq) as [Hbal Hrun].
  assert (Hbefore : before = trading_loop (timestamp final) pre (initial_account (Some q))).
  { unfold before, account_before.
    now rewrite last_timestamp_snoc, take_app_length. }
  rewrite <- Hbefore in Hbal, Hrun.
  unfold simulate_trading. rewrite Hrun. clear Hrun.
  unfold entry_flip, close_out.
  destruct Hentry as [[Hsig Hside]|[Hsig Hside]]; rewrite Hsig; simpl.
  - rewrite (proj2 (Z.leb_le _ _) Hside). simpl. rewrite Hbal, Hclose. simpl. ring.
  - destruct (position before <=? 0) eqn:Hle; simpl.
    + apply Z.leb_le in Hle. replace (position before) with 0 by lia.
      simpl. rewrite Hbal, Hclose. simpl. ring.
    + rewrite (proj2 (Z.geb_le _ _) Hside). simpl. rewrite Hbal, Hclose. simpl. ring.
Qed.

Lemma entry_on_final_bar_earns_nothing_witness :
  let pre := [mkRow 1 (Some 100%Q) 1; mkRow 2 (Some 140%Q) 0] in
  let final := mkRow 3 (Some 90%Q) (-1) in
  increasing (List.map timestamp (pre ++ [final])) = true /\
  (1000 <= 5000)%Q /\
  same_value (simulate_trading (pre ++ [final]) (Some 5000%Q)) (Some 5000%Q).
Proof.
  intros pre final.
  assert (Hinc : increasing (List.map timestamp (pre ++ [final])) = true) by reflexivity.
  assert (Hq : (1000 <= 5000)%Q) by discriminate.
  split; [exact Hinc|]. split; [exact Hq|].
  apply (entry_on_final_bar_earns_nothing pre final 5000%Q 90%Q Hinc Hq eq_refl).
  right. split; [reflexivity|]. vm_compute. discriminate.
Defined.

(** ** The annualised return as a growth rate *)








(** ** The rolling mean as an indicator *)

Lemma slice_app_prefix {A} (l later : list A) (a b : nat) :
  (b <= length l)%nat -> slice (l ++ later) a b = slice l a b.
Proof.
  intros Hb. unfold slice.
  destruct (decide (a <= length l)%nat) as [Ha|Ha].
  - rewrite drop_app_le by exact Ha.
    apply take_app_le. rewrite length_drop. lia.
  - replace (b - a)%nat with 0%nat by lia. reflexivity.
Qed.

Lemma roll_mean_from_prefix (values later : list pyfloat) (w : nat) (minp : Z) :
  forall todo i acc,
    (i + todo <= length values)%nat ->
    roll_mean_from (values ++ later) w minp i todo acc
    = roll_mean_from values w minp i todo acc.
Proof.
  induction todo as [|todo IH]; intros i acc Hlen; simpl; [reflexivity|].
  rewrite !slice_app_prefix by lia.
  f_equal. apply IH. lia.
Qed.

Lemma roll_mean_from_take (values : list pyfloat) (w : nat) (minp : Z) :
  forall n m i acc,
    take n (roll_mean_from values w minp i (n + m) acc)
    = roll_mean_from values w minp i n acc.
Proof.
  induction n as [|n IH]; intros m i acc; simpl; [reflexivity|].
  f_equal. apply IH.
Qed.

(** X8: the rolling mean never looks ahead.  Appending later rows to a
    column leaves every average already computed as it was. *)
Theorem sma_has_no_look_ahead (df df' : DataFrame) (column : string)
    (values later : list pyfloat) (window : Z) :
  columns df !! column = Some (ColFloat values) ->
  columns df' !! column = Some (ColFloat (values ++ later)) ->
  0 <= window ->
  exists out out',
    calculate_sma df column window = Returns out /\
    calculate_sma df' column window = Returns out' /\
    take (length values) out' = out.
Proof.
  intros Hc Hc' Hw. do 2 eexists.
  split; [apply (calculate_sma_numeric df column _ values window Hc eq_refl Hw)|].
  split; [apply (calculate_sma_numeric df' column _ _ window Hc' eq_refl Hw)|].
  unfold roll_mean. rewrite length_app, roll_mean_from_take.
  apply roll_mean_from_prefix. lia.
Qed.

Lemma sma_has_no_look_ahead_witness :
  let values := [Some 4%Q; Some 6%Q; Some 11%Q] in
  let later := [Some 1000%Q; None] in
  let df := setitem empty_frame "close" (ColFloat values) in
  let df' := setitem empty_frame "close" (ColFloat (values ++ later)) in
  0 <= 2 /\
  exists out out',
    calculate_sma df "close" 2 = Returns out /\
    calculate_sma df' "close" 2 = Returns out' /\
    take 3 out' = out.
Proof.
  intros values later df df'.
  assert (Hw : 0 <= 2) by lia.
  split; [exact Hw|].
  exact (sma_has_no_look_ahead df df' "close" values later 2 eq_refl eq_refl Hw).
Defined.

Lemma slice_single {A} (l : list A) (i : nat) (x : A) :
  l !! i = Some x -> slice l i (i + 1) = [x].
Proof.
  intros Hx. unfold slice. replace (i + 1 - i)%nat with 1%nat by lia.
  rewrite (drop_S l x i Hx). reflexivity.
Qed.

(** X9: a window of one row returns the column itself, NaN where the
    column is NaN. *)
Theorem sma_window_one_is_identity (df : DataFrame) (column : string)
    (values : list pyfloat) :
  columns df !! column = Some (ColFloat values) ->
  exists out,
    calculate_sma df column 1 = Returns out /\
    Forall2 same_value out values.
Proof.
  intros Hc. eexists.
  split; [apply (calculate_sma_numeric df column _ values 1 Hc eq_refl); lia|].
  change (Z.to_nat 1) with 1%nat.
  apply Forall2_same_length_lookup. split; [apply roll_mean_length|].
  intros i out v Hout Hv.
  destruct (roll_mean_lookup values 1 i ltac:(lia) (lookup_lt_Some _ _ _ Hv))
    as (out' & Hout' & Hmean).
  assert (out' = out) as -> by congruence.
  unfold mean_at in Hmean.
  replace (1 <=? i + 1)%nat with true in Hmean by (symmetry; apply Nat.leb_le; lia).
  unfold trailing_mean in Hmean.
  replace (i + 1 - 1)%nat with i in Hmean by lia.
  rewrite (slice_single values i v Hv) in Hmean.
  destruct v as [x|], out as [y|];
    cbn [same_value fsum fold_right fadd fdiv] in *; try contradiction; try exact I.
  rewrite Hmean. change (inject_Z (Z.of_nat 1)) with 1%Q. field.
Qed.

Lemma sma_window_one_is_identity_witness :
  let df := setitem empty_frame "close" (ColFloat [Some 4%Q; None; Some 11%Q]) in
  exists out,
    calculate_sma df "close" 1 = Returns out /\
    Forall2 same_value out [Some 4%Q; None; Some 11%Q].
Proof.
  intros df. exact (sma_window_one_is_identity df "close" _ eq_refl).
Defined.

(** X10: a column shorter than the window has no average at all: every
    value returned is undefined, and there are as many as rows. *)
Theorem sma_short_history_is_undefined (df : DataFrame) (column : string)
    (values : list pyfloat) (window : Z) :
  columns df !! column = Some (ColFloat values) ->
  Z.of_nat (length values) < window ->
  calculate_sma df column window = Returns (replicate (length values) None).
Proof.
  intros Hc Hshort.
  rewrite (calculate_sma_numeric df column _ values window Hc eq_refl) by lia.
  f_equal. apply list_eq_same_length with (length values);
    [apply length_replicate | apply roll_mean_length |].
  intros i out none Hi Hout Hnone.
  apply lookup_replicate in Hnone as [-> _].
  destruct (roll_mean_lookup values (Z.to_nat window) i ltac:(lia) Hi)
    as (out' & Hout' & Hmean).
  assert (out' = out) as -> by congruence.
  unfold mean_at in Hmean.
  replace (Z.to_nat window <=? i + 1)%nat with false in Hmean
    by (symmetry; apply Nat.leb_gt; lia).
  exact Hmean.
Qed.

Lemma sma_short_history_is_undefined_witness :
  let df := setitem empty_frame "close" (ColFloat [Some 4%Q; Some 6%Q; Some 11%Q]) in
  3 < 10 /\ calculate_sma df "close" 10 = Returns [None; None; None].
Proof.
  intros df. assert (H : 3 < 10) by lia. split; [exact H|].
  exact (sma_short_history_is_undefined df "close" _ 10 eq_refl H).
Defined.





(** ** What the quality report measures *)

Lemma count_true_cons (b : bool) (bs : list bool) :
  count_true (b :: bs) = (if b then 1 else 0) + count_true bs.
Proof. unfold count_true. destruct b; simpl length; lia. Qed.

Lemma count_true_nonneg (bs : list bool) : 0 <= count_true bs.
Proof. unfold count_true. lia. Qed.

Lemma count_true_any (bs : list bool) : 1 <= count_true bs <-> any bs = true.
Proof.
  split; [|apply count_true_positive].
  induction bs as [|[|] bs IH]; intros H.
  - unfold count_true in H. simpl in H. lia.
  - reflexivity.
  - rewrite count_true_cons in H. apply IH. lia.
Qed.

Lemma existsb_eqb_elem (x : Z) (seen : list Z) :
  existsb (Z.eqb x) seen = true <-> x ∈ seen.
Proof.
  rewrite existsb_exists, list_elem_of_In. split.
  - intros (y & Hy & Hxy). apply Z.eqb_eq in Hxy. now subst.
  - intros Hx. exists x. split; [exact Hx | apply Z.eqb_refl].
Qed.

(** Every entry is either new or marked. *)
Lemma duplicated_after_count (seen l : list Z) :
  count_true (duplicated_after Z.eqb seen l)
  = Z.of_nat (length l)
    - Z.of_nat (size ((list_to_set l : gset Z) ∖ list_to_set seen)).
Proof.
  revert seen. induction l as [|x l IH]; intros seen.
  - replace ((list_to_set [] : gset Z) ∖ list_to_set seen) with (∅ : gset Z)
      by set_solver.
    reflexivity.
  - cbn [duplicated_after]. rewrite count_true_cons, IH. cbn [length list_to_set].
    destruct (existsb (Z.eqb x) seen) eqn:Hseen.
    + apply existsb_eqb_elem in Hseen.
      replace (({[x]} ∪ list_to_set l) ∖ list_to_set seen : gset Z)
        with ((list_to_set l : gset Z) ∖ ({[x]} ∪ list_to_set seen))
        by set_solver.
      lia.
    + assert (Hx : x ∉ seen).
      { intros Hin. apply existsb_eqb_elem in Hin. congruence. }
      replace (({[x]} ∪ list_to_set l) ∖ list_to_set seen : gset Z)
        with ({[x]} ∪ (list_to_set l : gset Z) ∖ ({[x]} ∪ list_to_set seen))
        by (apply set_eq; intros y; destruct (decide (y = x)); set_solver).
      rewrite (size_union (C:=gset Z) {[x]}) by (apply disjoint_singleton_l; set_solver).
      rewrite size_singleton. lia.
Qed.

Lemma duplicated_count (l : list Z) :
  count_true (duplicated Z.eqb l)
  = Z.of_nat (length l) - Z.of_nat (size (list_to_set l : gset Z)).
Proof.
  unfold duplicated. rewrite duplicated_after_count.
  replace ((list_to_set l : gset Z) ∖ list_to_set []) with (list_to_set l : gset Z)
    by set_solver.
  reflexivity.
Qed.

(** X12: the duplicate count of the report is the number of rows minus
    the number of distinct timestamps. *)
Theorem duplicates_are_rows_minus_distinct (df : DataFrame) (ts : list Z)
    (report : QualityReport) :
  columns df !! "timestamp"%string = Some (ColTime ts) ->
  verify_data_quality df = Returns report ->
  duplicate_timestamps report
  = Z.of_nat (length ts) - Z.of_nat (size (list_to_set ts : gset Z)).
Proof.
  intros Hts Hrun. unfold verify_data_quality in Hrun.
  rewrite (getitem_lookup df "timestamp" _ Hts) in Hrun. simpl in Hrun.
  destruct (nonpositive_any df) as [nonpos|e]; [|discriminate].
  injection Hrun as <-. simpl. apply duplicated_count.
Qed.

Lemma duplicates_are_rows_minus_distinct_witness :
  let bars := [mkBar 5 (Some 1%Q) (Some 2%Q) (Some 1%Q) (Some 2%Q) (Some 9%Q);
               mkBar 7 (Some 2%Q) (Some 3%Q) (Some 1%Q) (Some 3%Q) (Some 4%Q);
               mkBar 5 (Some 2%Q) (Some 3%Q) (Some 1%Q) (Some 3%Q) (Some 4%Q);
               mkBar 5 (Some 2%Q) (Some 3%Q) (Some 1%Q) (Some 3%Q) (Some 4%Q)] in
  exists report,
    verify_data_quality (ohlcv_frame bars) = Returns report /\
    duplicate_timestamps report = 4 - Z.of_nat (size ({[5; 7]} : gset Z)).
Proof.
  intros bars. eexists. split; [apply verify_data_quality_ohlcv|].
  rewrite (duplicates_are_rows_minus_distinct (ohlcv_frame bars)
             (List.map bar_timestamp bars) _
             (ohlcv_timestamp bars) (verify_data_quality_ohlcv bars)).
  reflexivity.
Defined.

Lemma existsb_perm {A} (f : A -> bool) (l l' : list A) :
  l ≡ₚ l' -> existsb f l = existsb f l'.
Proof.
  induction 1 as [|x l l' _ IH|x y l|l l' l'' _ IH1 _ IH2]; simpl.
  - reflexivity.
  - now rewrite IH.
  - now destruct (f x), (f y).
  - now rewrite IH1.
Qed.

Lemma count_true_map_perm {A} (f : A -> bool) (l l' : list A) :
  l ≡ₚ l' -> count_true (List.map f l) = count_true (List.map f l').
Proof.
  induction 1 as [|x l l' _ IH|x y l|l l' l'' _ IH1 _ IH2]; cbn [List.map].
  - reflexivity.
  - now rewrite !count_true_cons, IH.
  - rewrite !count_true_cons. lia.
  - now rewrite IH1.
Qed.

(** X13: the gate cannot see the order of the rows.  Two series that
    hold the same bars in a different order get the same report, so bars
    that arrive out of time order raise no issue of their own. *)
Theorem quality_report_ignores_row_order (bars bars' : list Bar) :
  bars ≡ₚ bars' ->
  verify_data_quality (ohlcv_frame bars) = verify_data_quality (ohlcv_frame bars').
Proof.
  intros Hperm. rewrite !verify_data_quality_ohlcv.
  assert (Hts : List.map bar_timestamp bars ≡ₚ List.map bar_timestamp bars')
    by now apply Permutation_map.
  f_equal. f_equal.
  - now apply Permutation_length.
  - unfold ohlcv_frame. cbn [columns]. rewrite !fmap_insert, !fmap_empty.
    cbn [col_isnull].
    rewrite !List.map_map.
    now rewrite !(count_true_map_perm _ bars bars' Hperm).
  - rewrite !duplicated_count.
    now rewrite (Permutation_length Hts), (list_to_set_perm_L _ _ Hts).
  - unfold has_nonpositive, has_duplicate_timestamp, has_missing.
    rewrite !(existsb_perm _ bars bars' Hperm).
    do 3 f_equal. f_equal. apply bool_decide_ext. now rewrite Hts.
Qed.

Lemma quality_report_ignores_row_order_witness :
  let b1 := mkBar 5 (Some 1%Q) (Some 2%Q) (Some 1%Q) (Some 2%Q) (Some 9%Q) in
  let b2 := mkBar 7 (Some 2%Q) None (Some 1%Q) (Some 3%Q) (Some 4%Q) in
  let b3 := mkBar 9 (Some 2%Q) (Some 3%Q) (Some 1%Q) (Some 3%Q) (Some 0%Q) in
  [b1; b2; b3] ≡ₚ [b3; b1; b2] /\
  verify_data_quality (ohlcv_frame [b1; b2; b3])
  = verify_data_quality (ohlcv_frame [b3; b1; b2]).
Proof.
  intros b1 b2 b3.
  assert (Hperm : [b1; b2; b3] ≡ₚ [b3; b1; b2]).
  { change [b3; b1; b2] with ([b3] ++ [b1; b2]).
    change [b1; b2; b3] with ([b1; b2] ++ [b3]). apply Permutation_app_comm. }
  split; [exact Hperm|].
  exact (quality_report_ignores_row_order _ _ Hperm).
Defined.

Lemma issues_membership (c1 c2 c3 : bool) :
  let l := append_if c3 issue_nonpositive
             (append_if c2 issue_duplicates (append_if c1 issue_missing [])) in
  (issue_missing ∈ l <-> c1 = true) /\
  (issue_duplicates ∈ l <-> c2 = true) /\
  (issue_nonpositive ∈ l <-> c3 = true).
Proof.
  unfold issue_missing, issue_duplicates, issue_nonpositive.
  destruct c1, c2, c3; cbn [append_if app]; repeat split;
    first [ intros _; reflexivity
          | intros H; discriminate H
          | intros _; apply list_elem_of_In; simpl; tauto
          | intros H; apply list_elem_of_In in H; simpl in H;
            repeat (destruct H as [H|H]; try discriminate H); contradiction ].
Qed.

(** X14: the issues and the counts of one report agree.  Whenever the
    gate returns, the report covers the columns of the frame and no
    other, the missing-values issue is listed exactly when some column
    has a positive missing count, and the duplicate issue exactly when
    the duplicate count is positive. *)
Theorem quality_report_is_consistent (df : DataFrame) (report : QualityReport) :
  verify_data_quality df = Returns report ->
  total_rows report = nrows df /\
  dom (missing_values report) = dom (columns df) /\
  (issue_missing ∈ issues report <->
   exists key n, missing_values report !! key = Some n /\ 1 <= n) /\
  (issue_duplicates ∈ issues report <-> 1 <= duplicate_timestamps report).
Proof.
  intros Hrun. unfold verify_data_quality in Hrun.
  destruct (getitem df "timestamp") as [ts|e]; [|discriminate]. simpl in Hrun.
  destruct (nonpositive_any df) as [nonpos|e]; [|discriminate].
  injection Hrun as <-. cbn [total_rows missing_values duplicate_timestamps issues].
  destruct (issues_membership (isnull_any df) (any (col_duplicated ts)) nonpos)
    as (Hmissing & Hdup & _).
  split; [reflexivity|]. split; [apply dom_fmap_L|]. split.
  - rewrite Hmissing. unfold isnull_any.
    rewrite bool_decide_eq_true, map_Exists_lookup. split.
    + intros (key & c & Hc & Hnull). exists key, (count_true (col_isnull c)).
      split; [now rewrite lookup_fmap, Hc | now apply count_true_any].
    + intros (key & n & Hn & Hpos).
      rewrite lookup_fmap in Hn. apply fmap_Some in Hn as (c & Hc & ->).
      exists key, c. split; [exact Hc | now apply count_true_any].
  - rewrite Hdup. symmetry. apply count_true_any.
Qed.

Lemma quality_report_is_consistent_witness :
  let bars := [mkBar 5 (Some 1%Q) None (Some 1%Q) (Some 2%Q) (Some 9%Q);
               mkBar 7 (Some 2%Q) (Some 3%Q) (Some 1%Q) (Some 3%Q) (Some 4%Q)] in
  exists report,
    verify_data_quality (ohlcv_frame bars) = Returns report /\
    issue_missing ∈ issues report /\
    ~ issue_duplicates ∈ issues report.
Proof.
  intros bars. eexists. split; [apply verify_data_quality_ohlcv|].
  destruct (quality_report_is_consistent (ohlcv_frame bars) _
              (verify_data_quality_ohlcv bars)) as (_ & _ & Hmissing & Hdup).
  split.
  - apply Hmissing. exists "high"%string, 1. split; [reflexivity | lia].
  - intros H. apply Hdup in H. vm_compute in H. now apply H.
Defined.

Lemma mapM_returns {A B} (f : A -> outcome B) (l : list A) (ys : list B) :
  mapM f l = Returns ys <-> Forall2 (fun x y => f x = Returns y) l ys.
Proof.
  revert ys. induction l as [|x l IH]; intros ys; simpl.
  - split.
    + intros [= <-]. constructor.
    + intros H. inversion H. reflexivity.
  - unfold mbind, outcome_bind at 1. destruct (f x) as [y|e] eqn:Hx.
    + unfold mbind, outcome_bind at 1. destruct (mapM f l) as [ys'|e] eqn:Hl.
      * split.
        -- intros [= <-]. constructor; [exact Hx | now apply IH].
        -- intros H. inversion H as [|? y' ? ys'' Hy Hrest]; subst.
           apply IH in Hrest. rewrite Hx in Hy.
           injection Hy as ->. injection Hrest as ->. reflexivity.
      * split; [discriminate|].
        intros H. inversion H as [|? y' ? ys'' Hy Hrest]; subst.
        apply IH in Hrest. discriminate Hrest.
    + split; [discriminate|].
      intros H. inversion H as [|? y' ? ys'' Hy Hrest]; subst.
      rewrite Hx in Hy. discriminate Hy.
Qed.

(** X15: when the gate raises.  The gate never checks that its columns
    exist: it returns a report exactly when the frame has a [timestamp]
    column and each of [open], [high], [low], [close], [volume] is
    present with a numeric type; a frame without [timestamp] raises
    [KeyError] for that column. *)
Theorem quality_gate_needs_its_columns (df : DataFrame) :
  ((exists report, verify_data_quality df = Returns report) <->
   is_Some (columns df !! "timestamp"%string) /\
   List.Forall
     (fun key => exists c values,
        columns df !! key = Some c /\ col_to_float c = Returns values)
     numeric_columns) /\
  (columns df !! "timestamp"%string = None ->
   verify_data_quality df = Raises (KeyError "timestamp")).
Proof.
  assert (Hnum : (exists b, nonpositive_any df = Returns b) <->
            List.Forall
              (fun key => exists c values,
                 columns df !! key = Some c /\ col_to_float c = Returns values)
              numeric_columns).
  { unfold nonpositive_any, getitems. split.
    - intros (b & Hb).
      destruct (mapM (getitem df) numeric_columns) as [cols|e] eqn:Hcols;
        [|discriminate].
      simpl in Hb.
      destruct (mapM col_le_zero cols) as [masks|e] eqn:Hmasks; [|discriminate].
      apply mapM_returns in Hcols, Hmasks.
      apply List.Forall_forall. intros key Hkey.
      apply list_elem_of_In, list_elem_of_lookup in Hkey as (i & Hi).
      destruct (Forall2_lookup_l _ _ _ _ _ Hcols Hi) as (c & Hc & Hget).
      destruct (Forall2_lookup_l _ _ _ _ _ Hmasks Hc) as (mask & _ & Hmask).
      unfold getitem in Hget.
      destruct (columns df !! key) as [c'|]; [|discriminate].
      injection Hget as ->. exists c.
      destruct c as [ts|xs|zs]; simpl in *; try discriminate; eauto.
    - intros Hall.
      assert (Hcols : exists cols,
                Forall2 (fun key c => getitem df key = Returns c) numeric_columns cols /\
                List.Forall (fun c => exists values, col_to_float c = Returns values) cols).
      { induction Hall as [|key keys (c & values & Hc & Hv) _ (cols & Hcols & Hnumeric)].
        - exists []. split; constructor.
        - exists (c :: cols). split; constructor; eauto.
          unfold getitem. now rewrite Hc. }
      destruct Hcols as (cols & Hcols & Hnumeric).
      apply mapM_returns in Hcols. rewrite Hcols. simpl.
      assert (Hmasks : exists masks,
                Forall2 (fun c mask => col_le_zero c = Returns mask) cols masks).
      { clear Hcols. induction Hnumeric as [|c cols (values & Hv) _ (masks & Hmasks)].
        - exists []. constructor.
        - destruct c as [ts|xs|zs]; try discriminate;
            eexists; constructor; eauto; reflexivity. }
      destruct Hmasks as (masks & Hmasks).
      apply mapM_returns in Hmasks. rewrite Hmasks. simpl. eauto. }
  split.
  - unfold verify_data_quality, getitem at 1 2.
    destruct (columns df !! "timestamp"%string) as [ts|] eqn:Hts; simpl.
    + rewrite <- Hnum.
      destruct (nonpositive_any df) as [b|e]; simpl.
      * split; [intros _; split; eauto | intros _; eauto].
      * split; [intros (? & ?); discriminate
               | intros (_ & b & Hb); discriminate].
    + split; [intros (? & ?); discriminate | intros ((? & ?) & _); discriminate].
  - intros Hts. unfold verify_data_quality, getitem. now rewrite Hts.
Qed.

Lemma quality_gate_needs_its_columns_witness :
  let df := setitem (setitem empty_frame "timestamp" (ColTime [1; 2]))
              "close" (ColFloat [Some 1%Q; Some 2%Q]) in
  columns empty_frame !! "timestamp"%string = None /\
  verify_data_quality empty_frame = Raises (KeyError "timestamp") /\
  ~ (exists report, verify_data_quality df = Returns report).
Proof.
  intros df. assert (Hts : columns empty_frame !! "timestamp"%string = None) by reflexivity.
  split; [exact Hts|].
  split; [exact (proj2 (quality_gate_needs_its_columns empty_frame) Hts)|].
  intros Hrun. apply (proj1 (quality_gate_needs_its_columns df)) in Hrun as [_ Hall].
  apply List.Forall_inv in Hall as (c & values & Hc & _). discriminate Hc.
Defined.

(** ** Signal generation on frames that are not ready, or done twice *)

(** X16: a failed call still changes the frame.  When an average column
    is missing, [generate_signals] raises [KeyError] for it (for
    [SMA_10] first), but only after it has stored a [signal] column of
    zeros in the caller's frame. *)
Theorem generate_signals_fails_half_done (h : heap) (df : nat) (f : DataFrame) :
  h !! df = Some f ->
  let zeroed := <[df := setitem f "signal" (ColInt (replicate (nrows f) 0))]> h in
  (columns f !! "SMA_10"%string = None ->
     generate_signals df h = Err (KeyError "SMA_10") zeroed) /\
  (is_Some (columns f !! "SMA_10"%string) -> columns f !! "SMA_20"%string = None ->
     generate_signals df h = Err (KeyError "SMA_20") zeroed).
Proof.
  intros Hf zeroed. split.
  - intros H10.
    unfold generate_signals, mbind, heap_bind, mret, heap_ret, read, write, lift.
    rewrite (frame_at_lookup h df f Hf), frame_at_insert.
    unfold gt_mask, getitem.
    rewrite (setitem_lookup_ne f "signal" "SMA_10") by done. now rewrite H10.
  - intros [c H10] H20.
    unfold generate_signals, mbind, heap_bind, mret, heap_ret, read, write, lift.
    rewrite (frame_at_lookup h df f Hf), frame_at_insert.
    unfold gt_mask, getitem.
    rewrite (setitem_lookup_ne f "signal" "SMA_10") by done.
    rewrite (setitem_lookup_ne f "signal" "SMA_20") by done.
    now rewrite H10, H20.
Qed.

Lemma generate_signals_fails_half_done_witness :
  let f := setitem (mkFrame 2 ∅) "close" (ColFloat [Some 1%Q; Some 2%Q]) in
  let h : heap := <[3%nat := f]> ∅ in
  h !! 3%nat = Some f /\
  columns f !! "SMA_10"%string = None /\
  generate_signals 3 h
  = Err (KeyError "SMA_10") (<[3%nat := setitem f "signal" (ColInt [0; 0])]> h).
Proof.
  intros f h.
  assert (Hf : h !! 3%nat = Some f) by reflexivity.
  assert (H10 : columns f !! "SMA_10"%string = None) by reflexivity.
  split; [exact Hf|]. split; [exact H10|].
  exact (proj1 (generate_signals_fails_half_done h 3 f Hf) H10).
Defined.

(** X17: generating the signals twice is generating them once.  A second
    call on the frame a first call returned recomputes the same column
    and leaves the store as it was. *)
Theorem generate_signals_is_idempotent (h : heap) (df : nat) (f : DataFrame)
    (sma10 sma20 : list pyfloat) :
  h !! df = Some f ->
  columns f !! "SMA_10"%string = Some (ColFloat sma10) ->
  columns f !! "SMA_20"%string = Some (ColFloat sma20) ->
  exists h1,
    generate_signals df h = Ok df h1 /\
    generate_signals df h1 = Ok df h1.
Proof.
  intros Hf H10 H20. eexists.
  split; [apply (generate_signals_run h df f sma10 sma20 Hf H10 H20)|].
  match goal with
  | |- generate_signals df (<[df := ?f1]> h) = _ =>
      rewrite (generate_signals_run (<[df := f1]> h) df f1 sma10 sma20);
        [|apply lookup_insert_eq
         |rewrite setitem_lookup_ne by done; exact H10
         |rewrite setitem_lookup_ne by done; exact H20]
  end.
  now rewrite setitem_setitem, insert_insert_eq.
Qed.

Lemma generate_signals_is_idempotent_witness :
  let f := setitem (setitem (mkFrame 2 ∅) "SMA_10" (ColFloat [Some 5%Q; Some 4%Q]))
             "SMA_20" (ColFloat [Some 3%Q; Some 6%Q]) in
  let h : heap := <[0%nat := f]> ∅ in
  h !! 0%nat = Some f /\
  exists h1, generate_signals 0 h = Ok 0%nat h1 /\ generate_signals 0 h1 = Ok 0%nat h1.
Proof.
  intros f h.
  assert (Hf : h !! 0%nat = Some f) by reflexivity.
  split; [exact Hf|].
  exact (generate_signals_is_idempotent h 0 f _ _ Hf eq_refl eq_refl).
Defined.

(** ** The warm-up of the pipeline *)

Lemma zip_rows_signal_flat (ts : list Z) (closes : list pyfloat) (signals : list Z) :
  List.Forall (fun s => s = 0) signals ->
  List.Forall (fun row => signal row <> 1 /\ signal row <> -1)
    (zip_rows ts closes signals).
Proof.
  intros Hflat. revert ts closes.
  induction Hflat as [|s signals -> _ IH]; intros [|t ts] [|c closes]; simpl;
    try constructor; [split; discriminate | apply IH].
Qed.

Lemma sma20_warm_up (closes : list pyfloat) (i : nat) (v : pyfloat) :
  (i < 19)%nat -> roll_mean closes 20 !! i = Some v -> v = None.
Proof.
  intros Hi Hv.
  assert (Hlen : (i < length closes)%nat).
  { apply lookup_lt_Some in Hv. now rewrite roll_mean_length in Hv. }
  destruct (roll_mean_lookup closes 20 i ltac:(lia) Hlen) as (v' & Hv' & Hmean).
  pose proof (eq_trans (eq_sym Hv') Hv) as [= ->].
  unfold mean_at in Hmean.
  replace (20 <=? i + 1)%nat with false in Hmean by (symmetry; apply Nat.leb_gt; lia).
  exact Hmean.
Qed.

Lemma signal_rule_undefined (a : pyfloat) : signal_rule a None = 0.
Proof. now destruct a. Qed.

(** X18: no trade during the warm-up.  Whatever the bars, [main] runs to
    completion, the signal of each of the first 19 bars is Flat because
    the 20-bar average is not defined there yet, and a series of 19 bars
    or fewer ends with the initial balance of 10000. *)
Theorem main_trades_only_after_warm_up (bars : list Bar) (h : heap) :
  exists report final after signals,
    main bars h = Ok (report, fresh (dom h), final) (<[fresh (dom h) := after]> h) /\
    columns after !! "signal"%string = Some (ColInt signals) /\
    length signals = length bars /\
    (forall i s, (i < 19)%nat -> signals !! i = Some s -> s = 0) /\
    ((length bars <= 19)%nat -> final = Some 10000%Q).
Proof.
  destruct (main_run bars h) as (report & _ & Hrun).
  set (sma10 := roll_mean (List.map bar_close bars) 10) in *.
  set (sma20 := roll_mean (List.map bar_close bars) 20) in *.
  set (signals := zip_with signal_rule sma10 sma20) in *.
  assert (Hwarm : forall i s, (i < 19)%nat -> signals !! i = Some s -> s = 0).
  { intros i s Hi Hs. unfold signals in Hs.
    apply lookup_zip_with_Some in Hs as (a & b & -> & Ha & Hb).
    apply (sma20_warm_up _ i b Hi) in Hb. subst b. apply signal_rule_undefined. }
  do 4 eexists. split; [exact Hrun|].
  split; [apply setitem_lookup_eq|].
  split; [|split; [exact Hwarm|]].
  - unfold signals, sma10, sma20.
    rewrite length_zip_with, !roll_mean_length, length_map. lia.
  - intros Hshort.
    unfold simulate_trading, final_account.
    rewrite trading_loop_flat; [reflexivity | reflexivity |].
    apply zip_rows_signal_flat. apply Forall_lookup. intros i s Hs.
    apply (Hwarm i s); [|exact Hs].
    apply lookup_lt_Some in Hs. unfold signals, sma10, sma20 in Hs.
    rewrite length_zip_with, !roll_mean_length, length_map in Hs. lia.
Qed.

Lemma main_trades_only_after_warm_up_witness :
  let bars := [mkBar 1 (Some 7%Q) (Some 9%Q) (Some 6%Q) (Some 8%Q) (Some 3%Q);
               mkBar 2 (Some 8%Q) (Some 9%Q) (Some 7%Q) (Some 9%Q) (Some 2%Q)] in
  (length bars <= 19)%nat /\
  exists report after,
    main bars ∅ = Ok (report, fresh (dom (∅ : heap)), Some 10000%Q)
                     (<[fresh (dom (∅ : heap)) := after]> ∅).
Proof.
  intros bars. assert (Hshort : (length bars <= 19)%nat) by (simpl; lia).
  split; [exact Hshort|].
  destruct (main_trades_only_after_warm_up bars ∅)
    as (report & final & after & signals & Hrun & _ & _ & _ & Hfinal).
  exists report, after. now rewrite <- (Hfinal Hshort).
Defined.

(** ** Paging through the exchange *)

Lemma increasing_sorted (bars : list Bar) :
  increasing (List.map bar_timestamp bars) = true <-> StronglySorted bar_before bars.
Proof.
  induction bars as [|a bars IH].
  - split; [constructor | reflexivity].
  - split.
    + intros Hinc.
      assert (Htail : increasing (List.map bar_timestamp bars) = true).
      { destruct bars as [|b bars]; [reflexivity|].
        simpl in Hinc. now apply andb_prop in Hinc as [_ H]. }
      constructor; [now apply IH|].
      apply IH in Htail. destruct bars as [|b bars]; [constructor|].
      simpl in Hinc. apply andb_prop in Hinc as [Hab _]. apply Z.ltb_lt in Hab.
      constructor; [exact Hab|].
      apply StronglySorted_inv in Htail as [_ Hb].
      eapply List.Forall_impl; [|exact Hb]. unfold bar_before. intros c Hc. lia.
    + intros Hsorted. apply StronglySorted_inv in Hsorted as [Htail Ha].
      apply IH in Htail. destruct bars as [|b bars]; [reflexivity|].
      simpl. apply andb_true_intro. split; [|exact Htail].
      apply Z.ltb_lt. now apply List.Forall_inv in Ha.
Qed.

Lemma sorted_no_duplicate (bars : list Bar) :
  StronglySorted bar_before bars -> has_duplicate_timestamp bars = false.
Proof.
  intros Hsorted. unfold has_duplicate_timestamp.
  apply negb_false_iff, bool_decide_eq_true_2.
  induction Hsorted as [|a bars _ IH Ha]; simpl; [constructor|].
  constructor; [|exact IH].
  intros Hin. apply list_elem_of_In, in_map_iff in Hin as (b & Hts & Hb).
  rewrite List.Forall_forall in Ha. specialize (Ha b Hb). unfold bar_before in Ha. lia.
Qed.

(** A page that is not empty ends in its last kline. *)
Lemma last_open_time_snoc (page : list Bar) :
  page <> [] ->
  exists front b, page = front ++ [b] /\ last_open_time page = bar_timestamp b.
Proof.
  intros Hne. destruct page as [|b front _] using rev_ind; [contradiction|].
  exists front, b. split; [reflexivity|].
  unfold last_open_time. rewrite List.map_app. simpl. apply List.last_last.
Qed.

Lemma sorted_below_last (page : list Bar) :
  page <> [] -> StronglySorted bar_before page ->
  List.Forall (fun b => bar_timestamp b < last_open_time page + 1) page.
Proof.
  intros Hne Hsorted.
  destruct (last_open_time_snoc page Hne) as (front & b & -> & ->).
  apply List.Forall_forall. intros c Hc. apply list_elem_of_In in Hc.
  apply elem_of_app in Hc as [Hc|Hc].
  - pose proof (StronglySorted_app_1_elem_of _ _ _ c b Hsorted Hc) as Hlt.
    unfold bar_before in Hlt. specialize (Hlt ltac:(now left)). lia.
  - apply list_elem_of_singleton in Hc. subst. lia.
Qed.

Lemma sorted_lookup_lt (bars : list Bar) (i j : nat) (a b : Bar) :
  StronglySorted bar_before bars ->
  bars !! i = Some a -> bars !! j = Some b -> (i < j)%nat ->
  bar_timestamp a < bar_timestamp b.
Proof.
  intros Hsorted. revert i j.
  induction Hsorted as [|c bars _ IH Hc]; intros i j Hi Hj Hij; [discriminate|].
  destruct j as [|j]; [lia|]. simpl in Hj.
  destruct i as [|i]; simpl in Hi.
  - injection Hi as ->. rewrite List.Forall_forall in Hc.
    apply (Hc b). apply list_elem_of_In. eapply list_elem_of_lookup_2, Hj.
  - apply (IH i j Hi Hj). lia.
Qed.

Lemma sorted_filter (f : Bar -> bool) (bars : list Bar) :
  StronglySorted bar_before bars -> StronglySorted bar_before (List.filter f bars).
Proof.
  induction 1 as [|a bars _ IH Ha]; simpl; [constructor|].
  destruct (f a); [|exact IH]. constructor; [exact IH|].
  apply List.Forall_forall. intros b Hb. apply filter_In in Hb as [Hb _].
  rewrite List.Forall_forall in Ha. now apply Ha.
Qed.

Lemma sorted_take (n : nat) (bars : list Bar) :
  StronglySorted bar_before bars -> StronglySorted bar_before (take n bars).
Proof.
  intros Hsorted. rewrite <- (take_drop n bars) in Hsorted.
  now apply StronglySorted_app_1_l in Hsorted.
Qed.

Lemma in_range_elem (lo hi : Z) (db : list Bar) (b : Bar) :
  b ∈ in_range lo hi db <-> b ∈ db /\ lo <= bar_timestamp b <= hi.
Proof.
  unfold in_range. rewrite !list_elem_of_In, filter_In, andb_true_iff.
  rewrite Z.leb_le, Z.leb_le. tauto.
Qed.

Lemma elem_of_take_elem {A} (n : nat) (l : list A) (x : A) :
  x ∈ take n l -> x ∈ l.
Proof.
  intros H. apply elem_of_take in H as (i & Hi & _).
  eapply list_elem_of_lookup_2, Hi.
Qed.

Section FetchFacts.
Context {Server : Type}.
Variable request : Server -> Z -> Z -> response * Server.

(** A property of the cursor and the klines collected so far that every
    page preserves holds when the loop ends, and the loop ends either
    with the cursor at or past [end_ts] or on an empty page. *)
Lemma fetch_pages_invariant (P : Z -> list Bar -> Prop) (end_ts : Z) :
  (forall s cs acc page s',
     P cs acc -> cs < end_ts -> request s cs end_ts = (Klines page, s') ->
     page <> [] -> P (last_open_time page + 1) (acc ++ page)) ->
  forall fuel s cs acc all,
    P cs acc ->
    fetch_pages request fuel s cs end_ts acc = Fetched all ->
    exists cs',
      P cs' all /\
      (end_ts <= cs' \/ exists s1 s2, request s1 cs' end_ts = (Klines [], s2)).
Proof.
  intros Hstep. induction fuel as [|fuel IH]; intros s cs acc all HP Hrun;
    simpl in Hrun; [discriminate|].
  destruct (cs <? end_ts) eqn:Hlt.
  - apply Z.ltb_lt in Hlt.
    destruct (request s cs end_ts) as [[|page] s'] eqn:Hreq; [discriminate|].
    destruct page as [|k page].
    + injection Hrun as <-. exists cs. split; [exact HP|]. right. eauto.
    + apply (IH s' (last_open_time (k :: page) + 1) (acc ++ k :: page) all);
        [|exact Hrun].
      now apply (Hstep s cs acc (k :: page) s').
  - apply Z.ltb_ge in Hlt. injection Hrun as <-. exists cs. split; auto.
Qed.

Lemma fetch_pages_has_fuel (end_ts : Z) :
  (forall s cs page s',
     request s cs end_ts = (Klines page, s') -> page <> [] ->
     cs <= last_open_time page) ->
  forall fuel s cs acc,
    (Z.to_nat (end_ts - cs) < fuel)%nat ->
    fetch_pages request fuel s cs end_ts acc <> OutOfFuel.
Proof.
  intros Hprogress. induction fuel as [|fuel IH]; intros s cs acc Hfuel; [lia|].
  simpl. destruct (cs <? end_ts) eqn:Hlt; [|discriminate].
  apply Z.ltb_lt in Hlt.
  destruct (request s cs end_ts) as [[|page] s'] eqn:Hreq; [discriminate|].
  destruct page as [|k page]; [discriminate|].
  apply IH.
  pose proof (Hprogress s cs (k :: page) s' Hreq ltac:(discriminate)). lia.
Qed.

Lemma fetch_pages_no_http_error (end_ts : Z) :
  (forall s cs, fst (request s cs end_ts) <> HttpError) ->
  forall fuel s cs acc, fetch_pages request fuel s cs end_ts acc <> HttpFailed.
Proof.
  intros Hok. induction fuel as [|fuel IH]; intros s cs acc; [discriminate|].
  simpl. destruct (cs <? end_ts); [|discriminate].
  pose proof (Hok s cs) as Hreq.
  destruct (request s cs end_ts) as [[|page] s']; [now contradiction Hreq|].
  destruct page as [|k page]; [discriminate | apply IH].
Qed.

(** X19: the loop ends as soon as the exchange moves forward.  If every
    page that is not empty ends at or after the [startTime] it was asked
    for, the cursor grows by at least one millisecond per request and
    [end_ts - start_ts] requests are enough: the call either returns a
    frame or fails on an HTTP error. *)
Theorem fetch_ends_when_pages_advance (fuel : nat) (s : Server) (start_ts end_ts : Z) :
  (forall s cs page s',
     request s cs end_ts = (Klines page, s') -> page <> [] ->
     cs <= last_open_time page) ->
  (Z.to_nat (end_ts - start_ts) < fuel)%nat ->
  fetch_ohlcv request fuel s start_ts end_ts <> OutOfFuel.
Proof.
  intros Hprogress Hfuel. unfold fetch_ohlcv.
  pose proof (fetch_pages_has_fuel end_ts Hprogress fuel s start_ts [] Hfuel) as Hrun.
  destruct (fetch_pages request fuel s start_ts end_ts []); congruence.
Qed.

(** X20: the loop trusts the exchange to move forward.  If the exchange
    keeps answering with the same page, and that page ends more than a
    millisecond before [end_ts], the cursor is reset to the same place
    after every request and the call never returns. *)
Theorem fetch_spins_on_stale_pages (page : list Bar) (s : Server)
    (start_ts end_ts : Z) :
  page <> [] ->
  last_open_time page + 1 < end_ts ->
  (forall s cs, fst (request s cs end_ts) = Klines page) ->
  start_ts < end_ts ->
  forall fuel, fetch_ohlcv request fuel s start_ts end_ts = OutOfFuel.
Proof.
  intros Hne Hstale Hsame Hstart fuel.
  assert (Hspin : forall fuel s cs acc,
            cs < end_ts -> fetch_pages request fuel s cs end_ts acc = OutOfFuel).
  { clear fuel s Hstart. induction fuel as [|fuel IH]; intros s cs acc Hcs;
      [reflexivity|].
    simpl. rewrite (proj2 (Z.ltb_lt _ _) Hcs).
    pose proof (Hsame s cs) as Hreq.
    destruct (request s cs end_ts) as [resp s']. simpl in Hreq. subst resp.
    destruct page as [|k rest]; [contradiction|]. now apply IH. }
  unfold fetch_ohlcv. now rewrite Hspin.
Qed.

(** X21: pages that are in order give a frame that is in order.  If each
    page is strictly increasing in open time and starts at or after the
    [startTime] it was asked for, the bars of the frame returned are
    strictly increasing and none is older than [start_ts]; the quality
    gate then finds no duplicate timestamp. *)
Theorem fetch_keeps_pages_in_order (fuel : nat) (s : Server) (start_ts end_ts : Z)
    (all : list Bar) :
  (forall s cs page s',
     request s cs end_ts = (Klines page, s') ->
     increasing (List.map bar_timestamp page) = true /\
     List.Forall (fun b => cs <= bar_timestamp b) page) ->
  fetch_pages request fuel s start_ts end_ts [] = Fetched all ->
  fetch_ohlcv request fuel s start_ts end_ts = Fetched (ohlcv_frame all) /\
  increasing (List.map bar_timestamp all) = true /\
  List.Forall (fun b => start_ts <= bar_timestamp b) all /\
  has_duplicate_timestamp all = false.
Proof.
  intros Hpages Hrun.
  split; [unfold fetch_ohlcv; now rewrite Hrun|].
  set (P := fun (cs : Z) (acc : list Bar) =>
              start_ts <= cs /\ StronglySorted bar_before acc /\
              List.Forall (fun b => start_ts <= bar_timestamp b < cs) acc).
  destruct (fetch_pages_invariant P end_ts) with (fuel := fuel) (s := s)
    (cs := start_ts) (acc := @nil Bar) (all := all)
    as (cs' & (Hcs & Hsorted & Hbounds) & _).
  - intros s0 cs acc page s' (Hstart & Hacc & Hbelow) Hlt Hreq Hne.
    destruct (Hpages s0 cs page s' Hreq) as [Hinc Hfrom].
    apply increasing_sorted in Hinc.
    pose proof (sorted_below_last page Hne Hinc) as Hlast.
    rewrite List.Forall_forall in Hfrom, Hbelow, Hlast.
    assert (Hcursor : cs <= last_open_time page).
    { destruct (last_open_time_snoc page Hne) as (front & b & Hpage & ->).
      apply Hfrom. rewrite Hpage. apply in_or_app. right. now left. }
    split; [lia|]. split.
    + apply StronglySorted_app_2; [|exact Hacc|exact Hinc].
      intros a b Ha Hb. apply list_elem_of_In in Ha, Hb.
      specialize (Hbelow a Ha). specialize (Hfrom b Hb). unfold bar_before. lia.
    + apply List.Forall_forall. intros b Hb. apply in_app_or in Hb as [Hb|Hb].
      * specialize (Hbelow b Hb). lia.
      * specialize (Hfrom b Hb). specialize (Hlast b Hb). lia.
  - split; [lia|]. split; constructor.
  - exact Hrun.
  - split; [now apply increasing_sorted|]. split; [|now apply sorted_no_duplicate].
    eapply List.Forall_impl; [|exact Hbounds]. simpl. intros b Hb. lia.
Qed.

(** X22: paging loses nothing inside the range.  Against a store of bars
    in strictly increasing order that answers every request with its
    first [limit] bars between [startTime] and [endTime], the loop
    returns, in order, every stored bar with [start_ts <= t < end_ts]
    and no bar outside [start_ts <= t <= end_ts]. *)
Theorem fetch_collects_the_range (db : list Bar) (limit fuel : nat) (s : Server)
    (start_ts end_ts : Z) :
  increasing (List.map bar_timestamp db) = true ->
  (1 <= limit)%nat ->
  (forall s cs e, fst (request s cs e) = Klines (take limit (in_range cs e db))) ->
  (Z.to_nat (end_ts - start_ts) < fuel)%nat ->
  exists all,
    fetch_pages request fuel s start_ts end_ts [] = Fetched all /\
    (forall b, b ∈ db -> start_ts <= bar_timestamp b < end_ts -> b ∈ all) /\
    (forall b, b ∈ all -> b ∈ db /\ start_ts <= bar_timestamp b <= end_ts) /\
    increasing (List.map bar_timestamp all) = true.
Proof.
  intros Hdb Hlimit Hhonest Hfuel. apply increasing_sorted in Hdb.
  assert (Hpage : forall s cs page s',
            request s cs end_ts = (Klines page, s') ->
            page = take limit (in_range cs end_ts db)).
  { intros s0 cs page s' Hreq. pose proof (Hhonest s0 cs end_ts) as H.
    rewrite Hreq in H. simpl in H. now injection H. }
  assert (Hrange_sorted : forall cs, StronglySorted bar_before (in_range cs end_ts db))
    by (intros cs; now apply sorted_filter).
  assert (Hprogress : forall s cs page s',
            request s cs end_ts = (Klines page, s') -> page <> [] ->
            cs <= last_open_time page).
  { intros s0 cs page s' Hreq Hne.
    destruct (last_open_time_snoc page Hne) as (front & b & Hfront & ->).
    assert (Hb : b ∈ in_range cs end_ts db).
    { apply (Hpage s0 cs page s') in Hreq. rewrite Hfront in Hreq.
      apply (elem_of_take_elem limit). rewrite <- Hreq.
      apply elem_of_app. right. now left. }
    apply in_range_elem in Hb. lia. }
  destruct (fetch_pages request fuel s start_ts end_ts []) as [all| |] eqn:Hrun.
  2: { exfalso. apply (fetch_pages_no_http_error end_ts) with (fuel := fuel)
         (s := s) (cs := start_ts) (acc := @nil Bar); [|exact Hrun].
       intros s0 cs. now rewrite Hhonest. }
  2: { exfalso. now apply (fetch_pages_has_fuel end_ts Hprogress fuel s start_ts []). }
  exists all. split; [reflexivity|].
  set (P := fun (cs : Z) (acc : list Bar) =>
              start_ts <= cs /\ StronglySorted bar_before acc /\
              (forall b, b ∈ acc ->
                 b ∈ db /\ start_ts <= bar_timestamp b <= end_ts /\ bar_timestamp b < cs) /\
              (forall b, b ∈ db -> start_ts <= bar_timestamp b < cs ->
                 bar_timestamp b <= end_ts -> b ∈ acc)).
  destruct (fetch_pages_invariant P end_ts) with (fuel := fuel) (s := s)
    (cs := start_ts) (acc := @nil Bar) (all := all)
    as (cs' & (Hcs & Hsorted & Hsound & Hcomplete) & Hend).
  - intros s0 cs acc page s' (Hstart & Hacc & Hsound & Hcomplete) Hlt Hreq Hne.
    pose proof (Hprogress s0 cs page s' Hreq Hne) as Hcursor.
    pose proof (Hpage s0 cs page s' Hreq) as Htake.
    assert (Hin : forall b, b ∈ page -> b ∈ in_range cs end_ts db).
    { intros b Hb. rewrite Htake in Hb. now apply elem_of_take_elem in Hb. }
    assert (Hpage_sorted : StronglySorted bar_before page).
    { rewrite Htake. apply sorted_take, Hrange_sorted. }
    pose proof (sorted_below_last page Hne Hpage_sorted) as Hlast.
    rewrite List.Forall_forall in Hlast.
    split; [lia|]. split; [|split].
    + apply StronglySorted_app_2; [|exact Hacc|exact Hpage_sorted].
      intros a b Ha Hb. apply Hsound in Ha as (_ & _ & Ha).
      apply Hin, in_range_elem in Hb as [_ Hb]. unfold bar_before. lia.
    + intros b Hb. apply elem_of_app in Hb as [Hb|Hb].
      * apply Hsound in Hb as (Hdbb & Hr & Hb). repeat split; try tauto; lia.
      * pose proof (Hlast b (proj1 (list_elem_of_In _ _) Hb)) as Hbl.
        apply Hin, in_range_elem in Hb as [Hdbb Hr]. repeat split; try tauto; lia.
    + intros b Hb Hr Hhi. apply elem_of_app.
      destruct (decide (bar_timestamp b < cs)) as [Hold|Hnew];
        [left; apply Hcomplete; [exact Hb | lia | exact Hhi]|right].
      assert (Hbr : b ∈ in_range cs end_ts db) by (apply in_range_elem; split; [exact Hb | lia]).
      destruct (last_open_time_snoc page Hne) as (front & c & Hfront & Hc).
      assert (Hcp : c ∈ take limit (in_range cs end_ts db)).
      { rewrite <- Htake, Hfront. apply elem_of_app. right. now left. }
      apply elem_of_take in Hcp as (j & Hj & Hjl).
      apply list_elem_of_lookup in Hbr as (i & Hi).
      rewrite Htake. apply elem_of_take. exists i. split; [exact Hi|].
      destruct (decide (i <= j)%nat) as [Hij|Hij]; [lia|].
      pose proof (sorted_lookup_lt _ j i c b (Hrange_sorted cs) Hj Hi ltac:(lia)). lia.
  - split; [lia|]. split; [constructor|]. split.
    + intros b Hb. inversion Hb.
    + intros b _ Hr. lia.
  - exact Hrun.
  - split; [|split].
    + intros b Hb Hr.
      destruct Hend as [Hpast|(s1 & s2 & Hempty)].
      * apply Hcomplete; [exact Hb | lia | lia].
      * destruct (decide (bar_timestamp b < cs')) as [Hold|Hnew];
          [apply Hcomplete; [exact Hb | lia | lia]|].
        exfalso. apply (Hpage s1 cs' [] s2) in Hempty.
        assert (Hbr : b ∈ in_range cs' end_ts db)
          by (apply in_range_elem; split; [exact Hb | lia]).
        destruct (in_range cs' end_ts db) as [|k rest]; [inversion Hbr|].
        destruct limit; [lia | discriminate Hempty].
    + intros b Hb. apply Hsound in Hb. tauto.
    + now apply increasing_sorted.
Qed.
End FetchFacts.

Lemma fetch_ends_when_pages_advance_witness :
  let tick := fun (_ : unit) (cs _ : Z) =>
                (Klines [mkBar cs (Some 1%Q) (Some 1%Q) (Some 1%Q) (Some 1%Q) (Some 1%Q)], tt) in
  (Z.to_nat (4 - 1) < 5)%nat /\
  fetch_ohlcv tick 5 tt 1 4 <> OutOfFuel /\
  exists df, fetch_ohlcv tick 5 tt 1 4 = Fetched df /\ nrows df = 3%nat.
Proof.
  intros tick. assert (Hfuel : (Z.to_nat (4 - 1) < 5)%nat) by (simpl; lia).
  split; [exact Hfuel|]. split.
  - apply (fetch_ends_when_pages_advance tick 5 tt 1 4); [|exact Hfuel].
    intros s cs page s' Hreq _. injection Hreq as <- _.
    unfold last_open_time. simpl. lia.
  - eexists. split; reflexivity.
Defined.

Lemma fetch_spins_on_stale_pages_witness :
  let page := [mkBar 3 (Some 1%Q) (Some 1%Q) (Some 1%Q) (Some 1%Q) (Some 1%Q)] in
  let stale := fun (_ : unit) (_ _ : Z) => (Klines page, tt) in
  last_open_time page + 1 < 10 /\ 0 < 10 /\
  forall fuel, fetch_ohlcv stale fuel tt 0 10 = OutOfFuel.
Proof.
  intros page stale.
  assert (Hstale : last_open_time page + 1 < 10) by (vm_compute; reflexivity).
  assert (Hstart : 0 < 10) by lia.
  split; [exact Hstale|]. split; [exact Hstart|].
  apply (fetch_spins_on_stale_pages stale page tt 0 10);
    [discriminate | exact Hstale | reflexivity | exact Hstart].
Defined.

Lemma fetch_keeps_pages_in_order_witness :
  let bar := fun t => mkBar t (Some 1%Q) (Some 1%Q) (Some 1%Q) (Some 1%Q) (Some 1%Q) in
  let tick := fun (_ : unit) (cs _ : Z) => (Klines [bar cs; bar (cs + 2)], tt) in
  fetch_pages tick 5 tt 1 6 [] = Fetched [bar 1; bar 3; bar 4; bar 6] /\
  has_duplicate_timestamp [bar 1; bar 3; bar 4; bar 6] = false.
Proof.
  intros bar tick.
  assert (Hrun : fetch_pages tick 5 tt 1 6 [] = Fetched [bar 1; bar 3; bar 4; bar 6])
    by reflexivity.
  split; [exact Hrun|].
  refine (proj2 (proj2 (proj2 (fetch_keeps_pages_in_order tick 5 tt 1 6 _ _ Hrun)))).
  intros s cs page s' Hreq. injection Hreq as <- _. split.
  - simpl. rewrite andb_true_r. apply Z.ltb_lt. lia.
  - repeat constructor; simpl; lia.
Defined.

Lemma fetch_collects_the_range_witness :
  let bar := fun t => mkBar t (Some 1%Q) (Some 1%Q) (Some 1%Q) (Some 1%Q) (Some 1%Q) in
  let db := [bar 1; bar 4; bar 6; bar 8; bar 9; bar 12] in
  let store := fun (_ : unit) (cs e : Z) => (Klines (take 2 (in_range cs e db)), tt) in
  increasing (List.map bar_timestamp db) = true /\ (1 <= 2)%nat /\
  (Z.to_nat (9 - 2) < 8)%nat /\
  exists all,
    fetch_pages store 8 tt 2 9 [] = Fetched all /\
    (forall b, b ∈ db -> 2 <= bar_timestamp b < 9 -> b ∈ all) /\
    (forall b, b ∈ all -> b ∈ db /\ 2 <= bar_timestamp b <= 9).
Proof.
  intros bar db store.
  assert (Hdb : increasing (List.map bar_timestamp db) = true) by reflexivity.
  assert (Hlimit : (1 <= 2)%nat) by lia.
  assert (Hfuel : (Z.to_nat (9 - 2) < 8)%nat) by (simpl; lia).
  split; [exact Hdb|]. split; [exact Hlimit|]. split; [exact Hfuel|].
  destruct (fetch_collects_the_range store db 2 8 tt 2 9 Hdb Hlimit
              (fun _ _ _ => eq_refl) Hfuel)
    as (all & Hrun & Hcomplete & Hsound & _).
  exists all. split; [exact Hrun|]. split; assumption.
Defined.

(** Whether the bar that opens exactly at [end_ts] is returned depends on
    where the page boundary falls. *)
Example fetch_end_bar_depends_on_paging :
  let bar := fun t => mkBar t (Some 1%Q) (Some 1%Q) (Some 1%Q) (Some 1%Q) (Some 1%Q) in
  let db := [bar 1; bar 8; bar 9] in
  let store := fun limit (_ : unit) (cs e : Z) =>
                 (Klines (take limit (in_range cs e db)), tt) in
  fetch_pages (store 2%nat) 9 tt 1 9 [] = Fetched [bar 1; bar 8] /\
  fetch_pages (store 3%nat) 9 tt 1 9 [] = Fetched [bar 1; bar 8; bar 9].
Proof. split; reflexivity. Qed.

(** ** What the backtest reads *)

(** X23: only the open times and the closes drive the backtest.  Two
    series that agree on [timestamp] and [close] get the same signals
    and the same final balance from [main], however their [open],
    [high], [low] and [volume] differ. *)
Theorem main_reads_only_time_and_close (bars bars' : list Bar) (h h' : heap) :
  List.map bar_timestamp bars = List.map bar_timestamp bars' ->
  List.map bar_close bars = List.map bar_close bars' ->
  exists report report' final after after',
    main bars h = Ok (report, fresh (dom h), final) (<[fresh (dom h) := after]> h) /\
    main bars' h' = Ok (report', fresh (dom h'), final) (<[fresh (dom h') := after']> h') /\
    columns after !! "signal"%string = columns after' !! "signal"%string.
Proof.
  intros Hts Hclose.
  destruct (main_run bars h) as (report & _ & Hrun).
  destruct (main_run bars' h') as (report' & _ & Hrun').
  rewrite <- Hts, <- Hclose in Hrun'.
  do 5 eexists. split; [exact Hrun|]. split; [exact Hrun'|].
  now rewrite !setitem_lookup_eq.
Qed.

Lemma main_reads_only_time_and_close_witness :
  let bars := [mkBar 1 (Some 7%Q) (Some 9%Q) (Some 6%Q) (Some 8%Q) (Some 3%Q);
               mkBar 2 (Some 8%Q) (Some 9%Q) (Some 7%Q) (Some 9%Q) (Some 2%Q)] in
  let bars' := [mkBar 1 None (Some 1%Q) (Some 0%Q) (Some 8%Q) None;
                mkBar 2 (Some 5%Q) None (Some 2%Q) (Some 9%Q) (Some (-4)%Q)] in
  List.map bar_close bars = List.map bar_close bars' /\
  exists report report' final after after',
    main bars ∅ = Ok (report, fresh (dom (∅ : heap)), final)
                     (<[fresh (dom (∅ : heap)) := after]> ∅) /\
    main bars' ∅ = Ok (report', fresh (dom (∅ : heap)), final)
                      (<[fresh (dom (∅ : heap)) := after']> ∅).
Proof.
  intros bars bars'.
  assert (Hclose : List.map bar_close bars = List.map bar_close bars') by reflexivity.
  split; [exact Hclose|].
  destruct (main_reads_only_time_and_close bars bars' ∅ ∅ eq_refl Hclose)
    as (report & report' & final & after & after' & Hrun & Hrun' & _).
  now exists report, report', final, after, after'.
Defined.
